(** * The Gradle tasks client ([extension/src/client.ts])

    A shallow embedding of the class [GradleTasksClient]: its fields, its
    event handlers and its public operations, written as state-passing
    functions over a [World] that holds the object's fields together with
    the chronological list of calls it makes to its collaborators (status
    bar item, logger, server, gRPC client, cancellation registry).

    What the environment decides (whether the gRPC constructor throws, what
    [waitForReady] reports, whether the call that opens a stream returns or
    throws, which frames a stream delivers and how it terminates, what a
    unary call answers) is an explicit argument of the function that
    consumes it. *)

From Stdlib Require Import String Ascii List NArith Arith Bool Lia.
Import ListNotations.

Set Implicit Arguments.

(** ** JavaScript strings *)

(** A JavaScript string is a sequence of UTF-16 code units. *)
Definition jsstring := list N.

(** A source literal (ASCII only in [client.ts]). *)
Definition lit (s : string) : jsstring :=
  map N_of_ascii (list_ascii_of_string s).

(** ECMAScript [WhiteSpace] and [LineTerminator] code units, the characters
    removed by [String.prototype.trim]. *)
Definition isWhiteSpace (c : N) : bool :=
  ((c =? 0x09) || (c =? 0x0A) || (c =? 0x0B) || (c =? 0x0C) || (c =? 0x0D)
   || (c =? 0x20) || (c =? 0xA0) || (c =? 0x1680)
   || ((0x2000 <=? c) && (c <=? 0x200A))
   || (c =? 0x2028) || (c =? 0x2029) || (c =? 0x202F) || (c =? 0x205F)
   || (c =? 0x3000) || (c =? 0xFEFF))%N.

Fixpoint trimStart (s : jsstring) : jsstring :=
  match s with
  | c :: s' => if isWhiteSpace c then trimStart s' else s
  | [] => []
  end.

Definition trimEnd (s : jsstring) : jsstring := rev (trimStart (rev s)).

Definition trim (s : jsstring) : jsstring := trimEnd (trimStart s).

(** Truthiness of a string: every string but the empty one. *)
Definition truthy (s : jsstring) : bool :=
  match s with [] => false | _ :: _ => true end.

(** A message consisting only of white space. *)
Definition blank (s : jsstring) : Prop := Forall (fun c => isWhiteSpace c = true) s.

(** ** Errors *)

Inductive ErrorName := TypeError | ServiceError | OtherError.

(** An error object: [details] is the structured detail a [grpc.ServiceError]
    carries; a plain [Error] has none. *)
Record JsError := {
  name : ErrorName;
  details : option jsstring;
  message : jsstring
}.

(** [err.details || err.message]. *)
Definition detailsOrMessage (err : JsError) : jsstring :=
  match details err with
  | Some d => if truthy d then d else message err
  | None => message err
  end.

(** The error thrown when [this.grpcClient!.<member>] is evaluated while
    [grpcClient] is [null]; the non-null assertion [!] is erased at compile
    time.  The message text is the engine's. *)
Definition nullDeref (member : string) : JsError :=
  {| name := TypeError;
     details := None;
     message := lit "Cannot read property '" ++ lit member ++ lit "' of null" |}.

(** ** Wire messages ([./proto/gradle_tasks_pb]) *)

Module Progress.
Record t := { getMessage : jsstring }.
End Progress.

Module Output.
Inductive OutputType := STDERR | STDOUT.
Record t := { getOutputType : OutputType; getMessage : jsstring }.
End Output.

Module Cancelled.
Record t := {
  getMessage : jsstring;
  getTask : jsstring;
  getProjectDir : jsstring
}.
End Cancelled.

(** The discovered build; its content is not inspected by the client. *)
Record GradleBuild := { buildProject : jsstring }.

Module GetBuildResult.
Record t := { getBuild : option GradleBuild }.
End GetBuildResult.

Module GetBuildReply.
Inductive t :=
| PROGRESS (p : Progress.t)
| OUTPUT (o : Output.t)
| CANCELLED (c : Cancelled.t)
| GET_BUILD_RESULT (r : GetBuildResult.t)
| KIND_NOT_SET.
End GetBuildReply.

Module RunTaskReply.
Inductive t :=
| PROGRESS (p : Progress.t)
| OUTPUT (o : Output.t)
| CANCELLED (c : Cancelled.t)
| KIND_NOT_SET.
End RunTaskReply.

Record RunTaskRequest := {
  rtProjectDir : jsstring;
  rtTask : jsstring;
  rtJavaDebug : bool;
  rtJavaDebugPort : option N;
  rtArgsList : list jsstring
}.

Module CancelRunTaskReply.
Record t := { getMessage : jsstring; getTaskRunning : bool }.
End CancelRunTaskReply.

Module CancelRunTasksReply.
Record t := { getMessage : jsstring }.
End CancelRunTasksReply.

Module CancelGetBuildsReply.
Record t := { getMessage : jsstring }.
End CancelGetBuildsReply.

(** The part of a [vscode.Task] the client reads: [task.definition]. *)
Record Task := { script : jsstring; javaDebug : bool }.

(** ** Calls to collaborators *)

Inductive Level := LvlDebug | LvlInfo | LvlError.

(** Text handed to a sink: a plain string, or a [localize(key, format,
    ...args)] bundle kept with its arguments. *)
Inductive Text :=
| Raw (s : jsstring)
| Localized (key fmt : string) (args : list jsstring).

(** A gRPC client object, named by the order of its construction. *)
Definition Handle := nat.

Inductive Effect :=
| ServerOnReady                        (* server.onReady(handleServerReady) *)
| ServerOnStop                         (* server.onStop(handleServerStop) *)
| ServerStart                          (* server.start() *)
| ShowRestartMessage                   (* server.showRestartMessage() *)
| StatusText (t : Text)                (* statusBarItem.text = t *)
| StatusShow                           (* statusBarItem.show() *)
| StatusHide                           (* statusBarItem.hide() *)
| Log (lvl : Level) (t : Text)         (* logger.debug / info / error *)
| NewGrpcClient (port : N)             (* new GrpcClient(`localhost:${port}`, ...) *)
| WaitForReady (h : Handle) (secs : nat)
| Close (h : Handle)                   (* grpcClient.close() *)
| FireOnConnect                        (* _onConnect.fire() *)
| DisposeOnConnect                     (* _onConnect.dispose() *)
| OpenGetBuild (h : Handle) (projectDir : jsstring)
| OpenRunTask (h : Handle) (req : RunTaskRequest)
| CallCancelRunTask (h : Handle) (projectDir task : jsstring)
| CallCancelRunTasks (h : Handle)
| CallCancelGetBuilds (h : Handle)
| OnOutput (o : Output.t)              (* the caller's onOutput(output) *)
| HandleCancelledTask (task projectDir : jsstring).

(** ** The client and its surroundings *)

Record World := {
  (* fields of GradleTasksClient *)
  connectDeadline : nat;
  grpcClient : option Handle;
  connectTries : nat;
  maxConnectTries : nat;
  (* the surroundings *)
  serverPort : N;                      (* what server.getPort() answers *)
  nextHandle : Handle;                 (* gRPC clients constructed so far *)
  pendingReady : list Handle;          (* waitForReady callbacks not yet called *)
  effects : list Effect                (* calls made so far, oldest first *)
}.

(** ** A state monad over [World] *)

Definition M (A : Type) : Type := World -> A * World.

Definition ret {A} (a : A) : M A := fun w => (a, w).

Definition bind {A B} (c : M A) (k : A -> M B) : M B :=
  fun w => k (fst (c w)) (snd (c w)).

Declare Scope client_scope.
Delimit Scope client_scope with client.
Notation "x <- c ;; k" := (bind c (fun x => k))
  (at level 61, c at next level, right associativity) : client_scope.
Notation "c ;; k" := (bind c (fun _ => k))
  (at level 61, right associativity) : client_scope.
Local Open Scope client_scope.

Definition exec {A} (c : M A) (w : World) : World := snd (c w).
Definition eval {A} (c : M A) (w : World) : A := fst (c w).

Definition emit (e : Effect) : M unit := fun w =>
  (tt, {| connectDeadline := connectDeadline w;
          grpcClient := grpcClient w;
          connectTries := connectTries w;
          maxConnectTries := maxConnectTries w;
          serverPort := serverPort w;
          nextHandle := nextHandle w;
          pendingReady := pendingReady w;
          effects := effects w ++ [e] |}).

Definition getGrpcClient : M (option Handle) := fun w => (grpcClient w, w).
Definition getConnectTries : M nat := fun w => (connectTries w, w).
Definition getMaxConnectTries : M nat := fun w => (maxConnectTries w, w).

(** [this.server.getPort()]. *)
Definition getPort : M N := fun w => (serverPort w, w).

(** [this.grpcClient = new GrpcClient(...)] when the constructor returns. *)
Definition assignNewGrpcClient : M Handle := fun w =>
  (nextHandle w,
   {| connectDeadline := connectDeadline w;
      grpcClient := Some (nextHandle w);
      connectTries := connectTries w;
      maxConnectTries := maxConnectTries w;
      serverPort := serverPort w;
      nextHandle := S (nextHandle w);
      pendingReady := pendingReady w;
      effects := effects w |}).

(** [grpcClient.waitForReady(deadline, this.handleClientReady)]. *)
Definition waitForReady (h : Handle) : M unit := fun w =>
  (tt, {| connectDeadline := connectDeadline w;
          grpcClient := grpcClient w;
          connectTries := connectTries w;
          maxConnectTries := maxConnectTries w;
          serverPort := serverPort w;
          nextHandle := nextHandle w;
          pendingReady := pendingReady w ++ [h];
          effects := effects w ++ [WaitForReady h (connectDeadline w)] |}).

(** [this.connectTries += 1]. *)
Definition incrConnectTries : M unit := fun w =>
  (tt, {| connectDeadline := connectDeadline w;
          grpcClient := grpcClient w;
          connectTries := connectTries w + 1;
          maxConnectTries := maxConnectTries w;
          serverPort := serverPort w;
          nextHandle := nextHandle w;
          pendingReady := pendingReady w;
          effects := effects w |}).

Definition logger_debug (t : Text) : M unit := emit (Log LvlDebug t).
Definition logger_info (t : Text) : M unit := emit (Log LvlInfo t).
Definition logger_error (t : Text) : M unit := emit (Log LvlError t).

(** A promise as its caller sees it once settled. *)
Inductive Outcome (A : Type) :=
| Resolved (a : A)
| Rejected (e : JsError).
Arguments Rejected {A} e.

(** ** Connecting *)

(** Whether [new GrpcClient(...)] returns or throws. *)
Inductive CtorOutcome :=
| Constructed
| CtorThrows (err : JsError).

Definition connectToServer (ctor : CtorOutcome) : M unit :=
  port <- getPort ;;
  emit (NewGrpcClient port) ;;
  match ctor with
  | Constructed =>
      h <- assignNewGrpcClient ;;
      waitForReady h
  | CtorThrows err =>
      logger_error
        (Localized "client.grpcClientConstructionError"
           "Unable to construct the gRPC client: {0}" [message err]) ;;
      emit StatusHide
  end.

Definition handleServerStop : M unit := ret tt.

Definition handleServerReady (ctor : CtorOutcome) : M unit :=
  emit (StatusText (Raw (lit "$(sync~spin) Gradle: Connecting"))) ;;
  emit StatusShow ;;
  logger_debug
    (Localized "client.connecting" "Gradle client connecting to server" []) ;;
  connectToServer ctor.

(** [this.grpcClient?.close()]. *)
Definition closeGrpcClient : M unit :=
  g <- getGrpcClient ;;
  match g with
  | Some h => emit (Close h)
  | None => ret tt
  end.

(** [ctor] is the fate of the constructor call of the retry, when there is
    one. *)
Definition handleConnectError (e : JsError) (ctor : CtorOutcome) : M unit :=
  tries <- getConnectTries ;;
  maxTries <- getMaxConnectTries ;;
  if tries <? maxTries then
    incrConnectTries ;;
    closeGrpcClient ;;
    connectToServer ctor
  else
    logger_error
      (Localized "client.errorConnectingToServer"
         "Error connecting to gradle server: {0}" [message e]) ;;
    emit ShowRestartMessage.

Definition handleClientReady (err : option JsError) (ctor : CtorOutcome)
  : M unit :=
  match err with
  | Some e => handleConnectError e ctor
  | None =>
      logger_info
        (Localized "client.connected" "Gradle client connected to server" []) ;;
      emit FireOnConnect
  end.

(** [new GradleTasksClient(server, statusBarItem)]: the field initialisers
    and the constructor body. *)
Definition constructor (port : N) : World :=
  {| connectDeadline := 3;
     grpcClient := None;
     connectTries := 0;
     maxConnectTries := 5;
     serverPort := port;
     nextHandle := 0;
     pendingReady := [];
     effects := [ServerOnReady; ServerOnStop; ServerStart] |}.

(** ** Handlers of stream frames *)

Definition handleRunTaskCancelled (cancelled : Cancelled.t) : M unit :=
  logger_info
    (Localized "client.runTaskCancelled" "Task cancelled: {0}"
       [Cancelled.getMessage cancelled]) ;;
  emit (HandleCancelledTask (Cancelled.getTask cancelled)
          (Cancelled.getProjectDir cancelled)).

Definition handleGetBuildCancelled (cancelled : Cancelled.t) : M unit :=
  logger_info
    (Localized "client.getBuildCancelled" "Get build cancelled: {0}"
       [Cancelled.getMessage cancelled]).

Definition handleProgress (progress : Progress.t) : M unit :=
  let messageStr := trim (Progress.getMessage progress) in
  if truthy messageStr then
    emit (StatusText (Raw (lit "$(sync~spin) Gradle: " ++ messageStr)))
  else ret tt.

Definition handleOutput (output : Output.t) : M unit :=
  let logMessage := trim (Output.getMessage output) in
  if truthy logMessage then
    match Output.getOutputType output with
    | Output.STDERR => logger_error (Raw logMessage)
    | Output.STDOUT => logger_info (Raw logMessage)
    end
  else ret tt.

(** ** Streaming calls *)

(** How a stream terminates: ['end'] or ['error']. *)
Inductive Terminal :=
| StreamEnd
| StreamError (err : JsError).

(** Runs a ['data'] listener over the frames in arrival order, threading the
    listener's captured variable. *)
Fixpoint onEach {F S} (listener : S -> F -> M S) (s : S) (frames : list F)
  : M S :=
  match frames with
  | [] => ret s
  | f :: frames' => s' <- listener s f ;; onEach listener s' frames'
  end.

(** The ['data'] listener of [getBuild]; [build] is the variable the promise
    executor declares. *)
Definition getBuild_onData (build : option GradleBuild)
  (getBuildReply : GetBuildReply.t) : M (option GradleBuild) :=
  match getBuildReply with
  | GetBuildReply.PROGRESS p => handleProgress p ;; ret build
  | GetBuildReply.OUTPUT o => handleOutput o ;; ret build
  | GetBuildReply.CANCELLED c => handleGetBuildCancelled c ;; ret build
  | GetBuildReply.GET_BUILD_RESULT r => ret (GetBuildResult.getBuild r)
  | GetBuildReply.KIND_NOT_SET => ret build
  end.

(** What follows the awaited promise of [getBuild]: the [return], or the
    [catch] block, and then the [finally] block. *)
Definition getBuild_settle (projectFolder : jsstring)
  (build : option GradleBuild) (term : Terminal)
  : M (Outcome (option GradleBuild)) :=
  r <- match term with
       | StreamEnd => ret (Resolved build)
       | StreamError err =>
           logger_error
             (Localized "client.errorGettingBuild"
                "Error getting build for {0}: {1}"
                [projectFolder; detailsOrMessage err]) ;;
           ret (Resolved None)
       end ;;
  emit StatusHide ;;
  ret r.

(** Whether the call that opens a stream ([grpcClient.getBuild(request)],
    [grpcClient.runTask(request)]) returns the stream or throws; the gRPC
    library throws when the client has been closed. *)
Inductive Opening :=
| Opens
| OpenThrows (err : JsError).

(** [getBuild] up to the opening of the stream; [inl] is an exception
    thrown on the way, before the [try] block is entered. *)
Definition getBuild_open (projectFolder : jsstring) (opening : Opening)
  : M (JsError + Handle) :=
  emit (StatusText
          (Localized "client.refreshingTasks" "{0} Gradle: Refreshing Tasks"
             [lit "$(sync~spin)"])) ;;
  emit StatusShow ;;
  g <- getGrpcClient ;;
  match g with
  | None => ret (inl (nullDeref "getBuild"))
  | Some h =>
      match opening with
      | Opens => emit (OpenGetBuild h projectFolder) ;; ret (inr h)
      | OpenThrows err => ret (inl err)
      end
  end.

Definition getBuild (projectFolder : jsstring) (opening : Opening)
  (frames : list GetBuildReply.t) (term : Terminal)
  : M (Outcome (option GradleBuild)) :=
  getBuildStream <- getBuild_open projectFolder opening ;;
  match getBuildStream with
  | inl thrown => ret (Rejected thrown)
  | inr _ =>
      build <- onEach getBuild_onData None frames ;;
      getBuild_settle projectFolder build term
  end.

(** The ['data'] listener of [runTask]. *)
Definition runTask_onData (_ : unit) (runTaskReply : RunTaskReply.t)
  : M unit :=
  match runTaskReply with
  | RunTaskReply.PROGRESS p => handleProgress p
  | RunTaskReply.OUTPUT o => emit (OnOutput o)
  | RunTaskReply.CANCELLED c => handleRunTaskCancelled c
  | RunTaskReply.KIND_NOT_SET => ret tt
  end.

Definition runTask_settle (task : Task) (term : Terminal)
  : M (Outcome unit) :=
  match term with
  | StreamEnd =>
      logger_info
        (Localized "client.completedTask" "Completed task {0}" [script task])
  | StreamError err =>
      logger_error
        (Localized "client.errorRunningTask" "Error running task: {0}"
           [detailsOrMessage err])
  end ;;
  emit StatusHide ;;
  ret (Resolved tt).

Definition runTask_open (projectFolder : jsstring) (task : Task)
  (args : list jsstring) (javaDebugPort : option N) (opening : Opening)
  : M (JsError + Handle) :=
  emit StatusShow ;;
  let request :=
    {| rtProjectDir := projectFolder;
       rtTask := script task;
       rtJavaDebug := javaDebug task;
       rtJavaDebugPort := javaDebugPort;
       rtArgsList := args |} in
  g <- getGrpcClient ;;
  match g with
  | None => ret (inl (nullDeref "runTask"))
  | Some h =>
      match opening with
      | Opens => emit (OpenRunTask h request) ;; ret (inr h)
      | OpenThrows err => ret (inl err)
      end
  end.

Definition runTask (projectFolder : jsstring) (task : Task)
  (args : list jsstring) (javaDebugPort : option N) (opening : Opening)
  (frames : list RunTaskReply.t) (term : Terminal) : M (Outcome unit) :=
  runTaskStream <-
    runTask_open projectFolder task args javaDebugPort opening ;;
  match runTaskStream with
  | inl thrown => ret (Rejected thrown)
  | inr _ =>
      onEach runTask_onData tt frames ;;
      runTask_settle task term
  end.

(** ** Unary calls *)

(** What the callback of a unary call receives: [(err, reply)]. *)
Inductive Unary (R : Type) :=
| UnaryError (err : JsError)
| UnaryReply (reply : R).
Arguments UnaryError {R} err.

Definition cancelRunTask (projectFolder task : jsstring)
  (answer : Unary CancelRunTaskReply.t) : M (Outcome unit) :=
  g <- getGrpcClient ;;
  match g with
  | None =>
      logger_error
        (Localized "client.errorCancellingRunningTask"
           "Error cancelling running task: {0}"
           [detailsOrMessage (nullDeref "cancelRunTask")])
  | Some h =>
      emit (CallCancelRunTask h projectFolder task) ;;
      match answer with
      | UnaryReply cancelRunTaskReply =>
          logger_debug (Raw (CancelRunTaskReply.getMessage cancelRunTaskReply)) ;;
          if negb (CancelRunTaskReply.getTaskRunning cancelRunTaskReply) then
            emit (HandleCancelledTask task projectFolder)
          else ret tt
      | UnaryError err =>
          logger_error
            (Localized "client.errorCancellingRunningTask"
               "Error cancelling running task: {0}" [detailsOrMessage err])
      end
  end ;;
  ret (Resolved tt).

Definition cancelRunTasks (answer : Unary CancelRunTasksReply.t)
  : M (Outcome unit) :=
  g <- getGrpcClient ;;
  match g with
  | None =>
      logger_error
        (Localized "client.errorCancellingRunningTasks"
           "Error cancelling running tasks: {0}"
           [detailsOrMessage (nullDeref "cancelRunTasks")])
  | Some h =>
      emit (CallCancelRunTasks h) ;;
      match answer with
      | UnaryReply cancelRunTasksReply =>
          logger_debug (Raw (CancelRunTasksReply.getMessage cancelRunTasksReply))
      | UnaryError err =>
          logger_error
            (Localized "client.errorCancellingRunningTasks"
               "Error cancelling running tasks: {0}" [detailsOrMessage err])
      end
  end ;;
  ret (Resolved tt).

Definition cancelGetBuilds (answer : Unary CancelGetBuildsReply.t)
  : M (Outcome unit) :=
  g <- getGrpcClient ;;
  match g with
  | None =>
      logger_error
        (Localized "client.errorCancellingGetBuilds"
           "Error cancelling get builds: {0}"
           [detailsOrMessage (nullDeref "cancelGetBuilds")])
  | Some h =>
      emit (CallCancelGetBuilds h) ;;
      match answer with
      | UnaryReply cancelGetBuildsReply =>
          logger_debug (Raw (CancelGetBuildsReply.getMessage cancelGetBuildsReply))
      | UnaryError err =>
          logger_error
            (Localized "client.errorCancellingGetBuilds"
               "Error cancelling get builds: {0}" [detailsOrMessage err])
      end
  end ;;
  ret (Resolved tt).

Definition dispose : M unit :=
  closeGrpcClient ;;
  emit DisposeOnConnect.

(** ** The event loop *)

(** What a pending [waitForReady] callback is called with, and the fate of
    the constructor call should the handler retry. *)
Record Readiness := {
  readyError : option JsError;
  retryCtor : CtorOutcome
}.

Definition popPendingReady : M unit := fun w =>
  (tt, {| connectDeadline := connectDeadline w;
          grpcClient := grpcClient w;
          connectTries := connectTries w;
          maxConnectTries := maxConnectTries w;
          serverPort := serverPort w;
          nextHandle := nextHandle w;
          pendingReady := tl (pendingReady w);
          effects := effects w |}).

(** The oldest pending [waitForReady] callback is called. *)
Definition deliverReady (r : Readiness) : M unit :=
  popPendingReady ;;
  handleClientReady (readyError r) (retryCtor r).

(** Calls pending [waitForReady] callbacks, the [i]-th with [env i], until
    none is left. *)
Fixpoint eventLoop (fuel : nat) (env : nat -> Readiness) (w : World) : World :=
  match fuel with
  | 0 => w
  | S fuel' =>
      match pendingReady w with
      | [] => w
      | _ :: _ =>
          eventLoop fuel' (fun i => env (S i)) (exec (deliverReady (env 0)) w)
      end
  end.

(** One turn of the event loop that enters the client. *)
Inductive Action :=
| ServerReady (ctor : CtorOutcome)
| ServerStop
| ClientReady (err : option JsError) (ctor : CtorOutcome)
| GetBuildOpen (projectFolder : jsstring) (opening : Opening)
| GetBuildData (build : option GradleBuild) (reply : GetBuildReply.t)
| GetBuildSettle (projectFolder : jsstring) (build : option GradleBuild)
    (term : Terminal)
| RunTaskOpen (projectFolder : jsstring) (task : Task) (args : list jsstring)
    (javaDebugPort : option N) (opening : Opening)
| RunTaskData (reply : RunTaskReply.t)
| RunTaskSettle (task : Task) (term : Terminal)
| CancelRunTask (projectFolder task : jsstring)
    (answer : Unary CancelRunTaskReply.t)
| CancelRunTasks (answer : Unary CancelRunTasksReply.t)
| CancelGetBuilds (answer : Unary CancelGetBuildsReply.t)
| Dispose.

Definition perform (a : Action) : World -> World :=
  match a with
  | ServerReady ctor => exec (handleServerReady ctor)
  | ServerStop => exec handleServerStop
  | ClientReady err ctor => exec (deliverReady {| readyError := err; retryCtor := ctor |})
  | GetBuildOpen projectFolder opening =>
      exec (getBuild_open projectFolder opening)
  | GetBuildData build reply => exec (getBuild_onData build reply)
  | GetBuildSettle projectFolder build term =>
      exec (getBuild_settle projectFolder build term)
  | RunTaskOpen projectFolder task args javaDebugPort opening =>
      exec (runTask_open projectFolder task args javaDebugPort opening)
  | RunTaskData reply => exec (runTask_onData tt reply)
  | RunTaskSettle task term => exec (runTask_settle task term)
  | CancelRunTask projectFolder task answer =>
      exec (cancelRunTask projectFolder task answer)
  | CancelRunTasks answer => exec (cancelRunTasks answer)
  | CancelGetBuilds answer => exec (cancelGetBuilds answer)
  | Dispose => exec dispose
  end.

(** A life of the client: the turns in the order they happen. *)
Definition lifetime (acts : list Action) (w : World) : World :=
  fold_left (fun w a => perform a w) acts w.

(** ** Observations on the calls made *)

Definition observe {A} (f : Effect -> option A) (l : list Effect) : list A :=
  flat_map (fun e => match f e with Some a => [a] | None => [] end) l.

(** Ports of the [new GrpcClient(...)] calls: one per connect attempt. *)
Definition connectAttempts : list Effect -> list N :=
  observe (fun e => match e with NewGrpcClient p => Some p | _ => None end).

Definition restartPrompts : list Effect -> list unit :=
  observe (fun e => match e with ShowRestartMessage => Some tt | _ => None end).

Definition closes : list Effect -> list Handle :=
  observe (fun e => match e with Close h => Some h | _ => None end).

(** Arguments of the calls to [handleCancelledTask]. *)
Definition bookkeeping : list Effect -> list (jsstring * jsstring) :=
  observe (fun e =>
    match e with HandleCancelledTask t d => Some (t, d) | _ => None end).

Definition logged : list Effect -> list (Level * Text) :=
  observe (fun e => match e with Log l t => Some (l, t) | _ => None end).

Definition statusTexts : list Effect -> list Text :=
  observe (fun e => match e with StatusText t => Some t | _ => None end).

Definition forwardedOutputs : list Effect -> list Output.t :=
  observe (fun e => match e with OnOutput o => Some o | _ => None end).

(** Whether the status bar item is shown after the calls [l], when it was
    [before] them. *)
Fixpoint statusShown (before : bool) (l : list Effect) : bool :=
  match l with
  | [] => before
  | StatusShow :: l' => statusShown true l'
  | StatusHide :: l' => statusShown false l'
  | _ :: l' => statusShown before l'
  end.

(** ** Notions used to state the properties *)

(** The world after the further calls [l], every field of the client and of
    its surroundings as before. *)
Definition emits (l : list Effect) (w : World) : World :=
  {| connectDeadline := connectDeadline w;
     grpcClient := grpcClient w;
     connectTries := connectTries w;
     maxConnectTries := maxConnectTries w;
     serverPort := serverPort w;
     nextHandle := nextHandle w;
     pendingReady := pendingReady w;
     effects := effects w ++ l |}.

(** [c] changes nothing but the list of calls. *)
Definition onlyEmits {A} (c : M A) : Prop :=
  forall w, exists l, exec c w = emits l w.

(** Severity at which [handleOutput] logs a channel. *)
Definition severity (ty : Output.OutputType) : Level :=
  match ty with
  | Output.STDERR => LvlError
  | Output.STDOUT => LvlInfo
  end.

Definition isResult (reply : GetBuildReply.t) : bool :=
  match reply with
  | GetBuildReply.GET_BUILD_RESULT _ => true
  | _ => false
  end.

(** Every pending readiness callback is called with an error, and the
    constructor never throws. *)
Definition failing (env : nat -> Readiness) : Prop :=
  forall i, readyError (env i) <> None /\ retryCtor (env i) = Constructed.

Definition attemptsMade (w : World) : nat :=
  List.length (connectAttempts (effects w)).

Definition promptsShown (w : World) : nat :=
  List.length (restartPrompts (effects w)).

Definition closesMade (w : World) : nat :=
  List.length (closes (effects w)).

(** ** Worlds and messages used as examples *)

(** A client whose first connect attempt succeeded. *)
Definition connectedWorld : World :=
  exec (deliverReady {| readyError := None; retryCtor := Constructed |})
    (exec (handleServerReady Constructed) (constructor 4000)).

Definition progressA : Progress.t := {| Progress.getMessage := lit "A" |}.

Definition blankProgress : Progress.t :=
  {| Progress.getMessage := [0x20; 0x09; 0x0A]%N |}.

Definition stdoutB : Output.t :=
  {| Output.getOutputType := Output.STDOUT; Output.getMessage := lit "B" |}.

Definition stderrOutput : Output.t :=
  {| Output.getOutputType := Output.STDERR;
     Output.getMessage := lit "  FAILED " |}.

Definition buildX : GradleBuild := {| buildProject := lit "X" |}.

Definition resultX : GetBuildResult.t :=
  {| GetBuildResult.getBuild := Some buildX |}.

Definition unavailable : JsError :=
  {| name := ServiceError;
     details := Some (lit "failed to connect to all addresses");
     message := lit "14 UNAVAILABLE: failed to connect to all addresses" |}.

Definition deadlineExceeded : JsError :=
  {| name := OtherError;
     details := None;
     message := lit "Failed to connect before the deadline" |}.

Definition taskT1 : Task := {| script := lit "t1"; javaDebug := false |}.

Definition cancelledT1 : Cancelled.t :=
  {| Cancelled.getMessage := lit "stopped";
     Cancelled.getTask := lit "t1";
     Cancelled.getProjectDir := lit "/p" |}.

Definition notRunning : Unary CancelRunTaskReply.t :=
  UnaryReply {| CancelRunTaskReply.getMessage := lit "Task is not running";
                CancelRunTaskReply.getTaskRunning := false |}.

(** One run of task t1 in /p: the stream is opened, a [cancelRunTask] is
    answered with [taskRunning = false], the stream then delivers its
    Cancelled frame and ends. *)
Definition cancelEpisode : list Action :=
  [RunTaskOpen (lit "/p") taskT1 [] None Opens;
   CancelRunTask (lit "/p") (lit "t1") notRunning;
   RunTaskData (RunTaskReply.CANCELLED cancelledT1);
   RunTaskSettle taskT1 StreamEnd].

Definition alwaysDeadline : nat -> Readiness :=
  fun _ => {| readyError := Some deadlineExceeded; retryCtor := Constructed |}.



(** ** Calls made per frame, and further notions *)

(** The calls [handleProgress] makes for a frame. *)
Definition handleProgress_calls (p : Progress.t) : list Effect :=
  if truthy (trim (Progress.getMessage p)) then
    [StatusText
       (Raw (lit "$(sync~spin) Gradle: " ++ trim (Progress.getMessage p)))]
  else [].

(** The calls [handleOutput] makes for a frame. *)
Definition handleOutput_calls (o : Output.t) : list Effect :=
  if truthy (trim (Output.getMessage o)) then
    [Log (severity (Output.getOutputType o)) (Raw (trim (Output.getMessage o)))]
  else [].

(** The calls the ['data'] listener of [getBuild] makes for one frame. *)
Definition getBuild_calls (reply : GetBuildReply.t) : list Effect :=
  match reply with
  | GetBuildReply.PROGRESS p => handleProgress_calls p
  | GetBuildReply.OUTPUT o => handleOutput_calls o
  | GetBuildReply.CANCELLED c =>
      [Log LvlInfo
         (Localized "client.getBuildCancelled" "Get build cancelled: {0}"
            [Cancelled.getMessage c])]
  | GetBuildReply.GET_BUILD_RESULT _ => []
  | GetBuildReply.KIND_NOT_SET => []
  end.

(** The calls the ['data'] listener of [runTask] makes for one frame. *)
Definition runTask_calls (reply : RunTaskReply.t) : list Effect :=
  match reply with
  | RunTaskReply.PROGRESS p => handleProgress_calls p
  | RunTaskReply.OUTPUT o => [OnOutput o]
  | RunTaskReply.CANCELLED c =>
      [Log LvlInfo
         (Localized "client.runTaskCancelled" "Task cancelled: {0}"
            [Cancelled.getMessage c]);
       HandleCancelledTask (Cancelled.getTask c) (Cancelled.getProjectDir c)]
  | RunTaskReply.KIND_NOT_SET => []
  end.

(** The Output frames of a task stream, in arrival order. *)
Definition outputsOf (frames : list RunTaskReply.t) : list Output.t :=
  flat_map (fun f => match f with RunTaskReply.OUTPUT o => [o] | _ => [] end)
    frames.

(** The task identities of the Cancelled frames of a task stream, in arrival
    order. *)
Definition cancelledOf (frames : list RunTaskReply.t)
  : list (jsstring * jsstring) :=
  flat_map (fun f =>
    match f with
    | RunTaskReply.CANCELLED c =>
        [(Cancelled.getTask c, Cancelled.getProjectDir c)]
    | _ => []
    end) frames.

(** Calls that concern the connection and its owner rather than a request:
    the server, the gRPC client object and the connected notification. *)
Definition lifecycle (e : Effect) : bool :=
  match e with
  | ServerOnReady | ServerOnStop | ServerStart | ShowRestartMessage
  | NewGrpcClient _ | WaitForReady _ _ | Close _
  | FireOnConnect | DisposeOnConnect => true
  | _ => false
  end.

(** [c] changes nothing but the list of calls, and adds only calls that
    satisfy [P]. *)
Definition emitsOnly (P : Effect -> bool) {A} (c : M A) : Prop :=
  forall w, exists l, exec c w = emits l w /\ forallb P l = true.

Definition connectedFired : list Effect -> list unit :=
  observe (fun e => match e with FireOnConnect => Some tt | _ => None end).

Definition firesMade (w : World) : nat :=
  List.length (connectedFired (effects w)).

(** What the event loop still has to go through at most: the callbacks
    pending and the tries left. *)
Definition pendingWork (w : World) : nat :=
  List.length (pendingReady w) + (maxConnectTries w - connectTries w).

(** The first [k] readiness waits fail, the next one succeeds, and the
    constructor never throws. *)
Definition succeedsAfter (k : nat) (env : nat -> Readiness) : Prop :=
  (forall i, i < k ->
     readyError (env i) <> None /\ retryCtor (env i) = Constructed) /\
  readyError (env k) = None.

(** Server-ready episodes among the turns. *)
Definition serverReadies (acts : list Action) : nat :=
  List.length
    (filter (fun a => match a with ServerReady _ => true | _ => false end) acts).

(** [n] server-ready episodes, each connecting at the first attempt. *)
Fixpoint readyEpisodes (n : nat) : list Action :=
  match n with
  | 0 => []
  | S n' =>
      ServerReady Constructed :: ClientReady None Constructed ::
      readyEpisodes n'
  end.

Definition failTwiceThenReady : nat -> Readiness :=
  fun i =>
    {| readyError := if i <? 2 then Some deadlineExceeded else None;
       retryCtor := Constructed |}.

Definition constructorError : JsError :=
  {| name := TypeError;
     details := None;
     message := lit "Channel target must be a string" |}.

(** The turns that serve a request of the client's user: the steps of the
    streaming calls and the cancel operations. *)
Definition isRequest (a : Action) : bool :=
  match a with
  | ServerReady _ | ServerStop | ClientReady _ _ | Dispose => false
  | _ => true
  end.

(** The calls of a server-ready episode whose constructor returns the
    client [h]. *)
Definition connectingCalls (port : N) (secs : nat) (h : Handle) : list Effect :=
  [StatusText (Raw (lit "$(sync~spin) Gradle: Connecting"));
   StatusShow;
   Log LvlDebug
     (Localized "client.connecting" "Gradle client connecting to server" []);
   NewGrpcClient port;
   WaitForReady h secs].

(** The calls of the retry that follows the failure of client [failed], the
    last one constructed: the failed client is closed, then its successor is
    constructed and waited for. *)
Definition retryCalls (port : N) (secs : nat) (failed : Handle) : list Effect :=
  [Close failed; NewGrpcClient port; WaitForReady (S failed) secs].

(** * Properties *)

(** ** Running the monad *)

Lemma exec_bind {A B} (c : M A) (k : A -> M B) (w : World) :
  exec (bind c k) w = exec (k (eval c w)) (exec c w).
Proof. reflexivity. Qed.

Lemma eval_bind {A B} (c : M A) (k : A -> M B) (w : World) :
  eval (bind c k) w = eval (k (eval c w)) (exec c w).
Proof. reflexivity. Qed.

Lemma exec_ret {A} (a : A) (w : World) : exec (ret a) w = w.
Proof. reflexivity. Qed.

Lemma effects_emit (e : Effect) (w : World) :
  effects (exec (emit e) w) = effects w ++ [e].
Proof. reflexivity. Qed.

Lemma observe_app {A} (f : Effect -> option A) (l1 l2 : list Effect) :
  observe f (l1 ++ l2) = observe f l1 ++ observe f l2.
Proof. unfold observe. apply flat_map_app. Qed.

(** ** Trimming *)

Lemma trimStart_blank (s : jsstring) : blank s -> trimStart s = [].
Proof.
  induction 1 as [|c s Hc _ IH]; simpl; [reflexivity|].
  now rewrite Hc.
Qed.

Lemma trimStart_nil_blank (s : jsstring) : trimStart s = [] -> blank s.
Proof.
  induction s as [|c s IH]; simpl; intros H; [constructor|].
  destruct (isWhiteSpace c) eqn:Hc; [|discriminate].
  apply Forall_cons; [exact Hc|exact (IH H)].
Qed.

(** What [trimStart] leaves is empty or starts with a character that is not
    white space. *)
Lemma trimStart_head (s : jsstring) :
  match trimStart s with
  | [] => True
  | c :: _ => isWhiteSpace c = false
  end.
Proof.
  induction s as [|c s IH]; simpl; [exact I|].
  destruct (isWhiteSpace c) eqn:Hc; [exact IH|exact Hc].
Qed.

Lemma blank_rev (s : jsstring) : blank (rev s) -> blank s.
Proof.
  unfold blank. rewrite !Forall_forall. intros H c Hin.
  apply H. now apply in_rev in Hin.
Qed.

Lemma trim_blank (s : jsstring) : blank s -> trim s = [].
Proof.
  intros H. unfold trim, trimEnd. now rewrite (trimStart_blank H).
Qed.

Lemma trim_nil_blank (s : jsstring) : trim s = [] -> blank s.
Proof.
  unfold trim, trimEnd. intros H.
  assert (Hr : trimStart (rev (trimStart s)) = []).
  { destruct (trimStart (rev (trimStart s))); [reflexivity|].
    simpl in H. now apply app_eq_nil in H as [_ H]. }
  apply trimStart_nil_blank, blank_rev in Hr.
  apply trimStart_nil_blank.
  pose proof (trimStart_head s) as Hh.
  destruct (trimStart s) as [|c t]; [reflexivity|].
  inversion Hr; congruence.
Qed.

Lemma truthy_trim_blank (s : jsstring) : blank s -> truthy (trim s) = false.
Proof. intros H. now rewrite (trim_blank H). Qed.

Lemma truthy_trim_not_blank (s : jsstring) :
  ~ blank s -> truthy (trim s) = true.
Proof.
  intros H. destruct (trim s) eqn:E; [|reflexivity].
  exfalso. now apply H, trim_nil_blank.
Qed.

(** C5, as the code has it: a Progress frame on either stream, and an Output
    frame on a [getBuild] stream, does nothing at all when its message is
    only white space; otherwise the listener hands the trimmed message on,
    a Progress message to the status sink and an Output message to the log
    sink, at error severity for STDERR and at info severity for STDOUT.  An
    Output frame on a [runTask] stream, blank or not, goes to the caller's
    [onOutput] and writes neither sink. *)
Theorem frames_blank_suppressed_else_trimmed
  (w : World) (build : option GradleBuild) :
  (forall p, blank (Progress.getMessage p) ->
     exec (getBuild_onData build (GetBuildReply.PROGRESS p)) w = w /\
     exec (runTask_onData tt (RunTaskReply.PROGRESS p)) w = w) /\
  (forall o, blank (Output.getMessage o) ->
     exec (getBuild_onData build (GetBuildReply.OUTPUT o)) w = w) /\
  (forall p, ~ blank (Progress.getMessage p) ->
     exec (getBuild_onData build (GetBuildReply.PROGRESS p)) w =
       emits [StatusText
                (Raw (lit "$(sync~spin) Gradle: " ++
                      trim (Progress.getMessage p)))] w /\
     exec (runTask_onData tt (RunTaskReply.PROGRESS p)) w =
       emits [StatusText
                (Raw (lit "$(sync~spin) Gradle: " ++
                      trim (Progress.getMessage p)))] w) /\
  (forall o, ~ blank (Output.getMessage o) ->
     exec (getBuild_onData build (GetBuildReply.OUTPUT o)) w =
       emits [Log (severity (Output.getOutputType o))
                (Raw (trim (Output.getMessage o)))] w) /\
  (forall o,
     exec (runTask_onData tt (RunTaskReply.OUTPUT o)) w = emits [OnOutput o] w).
Proof.
  assert (P : forall p,
            exec (getBuild_onData build (GetBuildReply.PROGRESS p)) w =
              exec (handleProgress p) w /\
            exec (runTask_onData tt (RunTaskReply.PROGRESS p)) w =
              exec (handleProgress p) w) by (intros p; split; reflexivity).
  assert (O : forall o,
            exec (getBuild_onData build (GetBuildReply.OUTPUT o)) w =
              exec (handleOutput o) w) by reflexivity.
  split; [|split; [|split; [|split]]].
  - intros p H. destruct (P p) as [-> ->].
    unfold handleProgress. rewrite (truthy_trim_blank H). split; reflexivity.
  - intros o H. rewrite O.
    unfold handleOutput. now rewrite (truthy_trim_blank H).
  - intros p H. destruct (P p) as [-> ->].
    unfold handleProgress. rewrite (truthy_trim_not_blank H).
    split; reflexivity.
  - intros o H. rewrite O.
    unfold handleOutput. rewrite (truthy_trim_not_blank H).
    now destruct (Output.getOutputType o).
  - reflexivity.
Qed.

Lemma frames_blank_suppressed_else_trimmed_witness :
  exec (runTask_onData tt (RunTaskReply.PROGRESS blankProgress))
    (constructor 0) = constructor 0 /\
  exec (getBuild_onData None (GetBuildReply.OUTPUT stderrOutput))
    (constructor 0) =
  emits [Log LvlError (Raw (lit "FAILED"))] (constructor 0).
Proof.
  destruct (frames_blank_suppressed_else_trimmed (constructor 0) None)
    as (Hp & _ & _ & Ho & _).
  split.
  - apply Hp. repeat constructor.
  - apply (Ho stderrOutput). intros H.
    inversion H as [|? ? _ Ha]. inversion Ha as [|? ? _ Hb].
    inversion Hb as [|? ? Hc _]. discriminate Hc.
Defined.

(** C5 as stated fails: the Output frame [stderrOutput] of a task stream,
    whose message is not blank, is not logged at error severity. *)
Lemma runTask_stderr_output_not_forwarded_to_log :
  ~ (logged
       (effects (exec (runTask_onData tt (RunTaskReply.OUTPUT stderrOutput))
                   connectedWorld)) =
     logged (effects connectedWorld) ++ [(LvlError, Raw (lit "FAILED"))]).
Proof. intros H. vm_compute in H. discriminate H. Qed.

(** ** Operations that only make calls *)

Lemma emits_nil (w : World) : emits [] w = w.
Proof. destruct w. unfold emits. simpl. now rewrite app_nil_r. Qed.

Lemma emits_emits (l1 l2 : list Effect) (w : World) :
  emits l2 (emits l1 w) = emits (l1 ++ l2) w.
Proof. unfold emits. simpl. now rewrite app_assoc. Qed.

Lemma exec_emit (e : Effect) (w : World) : exec (emit e) w = emits [e] w.
Proof. reflexivity. Qed.

Lemma onlyEmits_ret {A} (a : A) : onlyEmits (ret a).
Proof. intros w. exists []. now rewrite emits_nil. Qed.

Lemma onlyEmits_emit (e : Effect) : onlyEmits (emit e).
Proof. intros w. now exists [e]. Qed.

Lemma onlyEmits_bind {A B} (c : M A) (k : A -> M B) :
  onlyEmits c -> (forall a, onlyEmits (k a)) -> onlyEmits (bind c k).
Proof.
  intros Hc Hk w. rewrite exec_bind.
  destruct (Hc w) as [l1 E1]. rewrite E1.
  destruct (Hk (eval c w) (emits l1 w)) as [l2 E2]. rewrite E2.
  exists (l1 ++ l2). apply emits_emits.
Qed.

Create HintDb emits.
#[export] Hint Resolve onlyEmits_ret onlyEmits_emit : emits.

Lemma onlyEmits_getGrpcClient : onlyEmits getGrpcClient.
Proof. intros w. exists []. now rewrite emits_nil. Qed.

Ltac frame_emits :=
  repeat first
    [ apply onlyEmits_ret
    | apply onlyEmits_emit
    | apply onlyEmits_getGrpcClient
    | solve [auto with emits]
    | apply onlyEmits_bind; [|intros ?]
    | match goal with
      | |- onlyEmits (match ?x with _ => _ end) => destruct x
      end
    | progress unfold logger_debug, logger_info, logger_error ].

Lemma onlyEmits_handleProgress p : onlyEmits (handleProgress p).
Proof. unfold handleProgress. destruct (truthy _); frame_emits. Qed.

Lemma onlyEmits_handleOutput o : onlyEmits (handleOutput o).
Proof.
  unfold handleOutput.
  destruct (truthy _); [destruct (Output.getOutputType o)|]; frame_emits.
Qed.

Lemma onlyEmits_handleGetBuildCancelled c :
  onlyEmits (handleGetBuildCancelled c).
Proof. unfold handleGetBuildCancelled. frame_emits. Qed.

Lemma onlyEmits_handleRunTaskCancelled c :
  onlyEmits (handleRunTaskCancelled c).
Proof. unfold handleRunTaskCancelled. frame_emits. Qed.

#[export] Hint Resolve onlyEmits_handleProgress onlyEmits_handleOutput
  onlyEmits_handleGetBuildCancelled onlyEmits_handleRunTaskCancelled : emits.

Lemma onlyEmits_getBuild_onData build reply :
  onlyEmits (getBuild_onData build reply).
Proof.
  destruct reply; simpl; auto with emits;
    apply onlyEmits_bind; auto with emits.
Qed.

Lemma onlyEmits_runTask_onData u reply : onlyEmits (runTask_onData u reply).
Proof. destruct reply; simpl; auto with emits. Qed.

Lemma onlyEmits_onEach {F S} (listener : S -> F -> M S) :
  (forall s f, onlyEmits (listener s f)) ->
  forall frames s, onlyEmits (onEach listener s frames).
Proof.
  intros H frames. induction frames as [|f frames IH]; intros s; simpl.
  - apply onlyEmits_ret.
  - apply onlyEmits_bind; [apply H|intros s'; apply IH].
Qed.

Lemma onlyEmits_getBuild_settle projectFolder build term :
  onlyEmits (getBuild_settle projectFolder build term).
Proof. unfold getBuild_settle. destruct term; frame_emits. Qed.

Lemma onlyEmits_runTask_settle task term :
  onlyEmits (runTask_settle task term).
Proof. unfold runTask_settle. destruct term; frame_emits. Qed.

Lemma onlyEmits_getBuild_open projectFolder opening :
  onlyEmits (getBuild_open projectFolder opening).
Proof. unfold getBuild_open. frame_emits. Qed.

Lemma onlyEmits_runTask_open projectFolder task args javaDebugPort opening :
  onlyEmits (runTask_open projectFolder task args javaDebugPort opening).
Proof. unfold runTask_open. frame_emits. Qed.

Lemma onlyEmits_cancelRunTask projectFolder task answer :
  onlyEmits (cancelRunTask projectFolder task answer).
Proof. unfold cancelRunTask. frame_emits. Qed.

Lemma onlyEmits_cancelRunTasks answer : onlyEmits (cancelRunTasks answer).
Proof. unfold cancelRunTasks. frame_emits. Qed.

Lemma onlyEmits_cancelGetBuilds answer : onlyEmits (cancelGetBuilds answer).
Proof. unfold cancelGetBuilds. frame_emits. Qed.

Lemma onlyEmits_dispose : onlyEmits dispose.
Proof. unfold dispose, closeGrpcClient. frame_emits. Qed.

Lemma onlyEmits_connectTries {A} (c : M A) (w : World) :
  onlyEmits c ->
  connectTries (exec c w) = connectTries w /\
  maxConnectTries (exec c w) = maxConnectTries w.
Proof. intros H. destruct (H w) as [l ->]. split; reflexivity. Qed.

Lemma statusShown_hidden (l : list Effect) (b : bool) :
  statusShown b (l ++ [StatusHide]) = false.
Proof.
  revert b. induction l as [|e l IH]; intros b; simpl; [reflexivity|].
  destruct e; apply IH.
Qed.

(** ** Build discovery *)

Lemma getBuild_onData_value build reply w :
  eval (getBuild_onData build reply) w =
  match reply with
  | GetBuildReply.GET_BUILD_RESULT r => GetBuildResult.getBuild r
  | _ => build
  end.
Proof. destruct reply; reflexivity. Qed.

Lemma onEach_no_result frames : forall build w,
  existsb isResult frames = false ->
  eval (onEach getBuild_onData build frames) w = build.
Proof.
  induction frames as [|f frames IH]; intros build w H; simpl in *.
  - reflexivity.
  - apply orb_false_iff in H as [Hf Hr].
    rewrite eval_bind, getBuild_onData_value.
    rewrite IH by exact Hr. destruct f; try reflexivity; discriminate.
Qed.

Lemma onEach_last_result pre r post : forall build w,
  existsb isResult post = false ->
  eval (onEach getBuild_onData build
          (pre ++ GetBuildReply.GET_BUILD_RESULT r :: post)) w =
  GetBuildResult.getBuild r.
Proof.
  induction pre as [|f pre IH]; intros build w H; simpl.
  - rewrite eval_bind. now apply onEach_no_result.
  - rewrite eval_bind. now apply IH.
Qed.

Lemma getBuild_open_connected projectFolder w h :
  grpcClient w = Some h ->
  eval (getBuild_open projectFolder Opens) w = inr h /\
  exec (getBuild_open projectFolder Opens) w =
  emits [StatusText
           (Localized "client.refreshingTasks" "{0} Gradle: Refreshing Tasks"
              [lit "$(sync~spin)"]);
         StatusShow; OpenGetBuild h projectFolder] w.
Proof.
  intros H. unfold getBuild_open, eval, exec, bind, getGrpcClient, emits.
  cbn. rewrite H. cbn. rewrite <- !app_assoc. split; reflexivity.
Qed.

Lemma runTask_open_connected projectFolder task args javaDebugPort w h :
  grpcClient w = Some h ->
  eval (runTask_open projectFolder task args javaDebugPort Opens) w = inr h /\
  exec (runTask_open projectFolder task args javaDebugPort Opens) w =
  emits [StatusShow;
         OpenRunTask h
           {| rtProjectDir := projectFolder;
              rtTask := script task;
              rtJavaDebug := javaDebug task;
              rtJavaDebugPort := javaDebugPort;
              rtArgsList := args |}] w.
Proof.
  intros H. unfold runTask_open, eval, exec, bind, getGrpcClient, emits.
  cbn. rewrite H. cbn. rewrite <- !app_assoc. split; reflexivity.
Qed.

(** [getBuild] on a constructed client: the frames are handled on the world
    the opening leaves, then the call settles. *)
Lemma getBuild_connected projectFolder frames term w h :
  grpcClient w = Some h ->
  let w1 := exec (getBuild_open projectFolder Opens) w in
  let w2 := exec (onEach getBuild_onData None frames) w1 in
  let build := eval (onEach getBuild_onData None frames) w1 in
  eval (getBuild projectFolder Opens frames term) w =
    eval (getBuild_settle projectFolder build term) w2 /\
  exec (getBuild projectFolder Opens frames term) w =
    exec (getBuild_settle projectFolder build term) w2.
Proof.
  intros H. destruct (getBuild_open_connected projectFolder w H) as [Ev _].
  unfold getBuild. cbn zeta. rewrite eval_bind, exec_bind, Ev.
  split; reflexivity.
Qed.

Lemma runTask_connected projectFolder task args javaDebugPort frames term w h :
  grpcClient w = Some h ->
  let w1 := exec (runTask_open projectFolder task args javaDebugPort Opens) w in
  let w2 := exec (onEach runTask_onData tt frames) w1 in
  eval (runTask projectFolder task args javaDebugPort Opens frames term) w =
    eval (runTask_settle task term) w2 /\
  exec (runTask projectFolder task args javaDebugPort Opens frames term) w =
    exec (runTask_settle task term) w2.
Proof.
  intros H.
  destruct (runTask_open_connected projectFolder task args javaDebugPort w H)
    as [Ev _].
  unfold runTask. cbn zeta. rewrite eval_bind, exec_bind, Ev.
  split; reflexivity.
Qed.

(** C6: a [getBuild] call whose stream ends normally resolves with the build
    of the Result frame it observed (the last one, should there be several),
    and with no value when it observed none. *)
Theorem getBuild_resolves_with_result_or_void
  (projectFolder : jsstring) (frames : list GetBuildReply.t) (w : World)
  (h : Handle) (connected : grpcClient w = Some h) :
  (existsb isResult frames = false ->
   eval (getBuild projectFolder Opens frames StreamEnd) w = Resolved None) /\
  (forall pre r post,
     frames = pre ++ GetBuildReply.GET_BUILD_RESULT r :: post ->
     existsb isResult post = false ->
     eval (getBuild projectFolder Opens frames StreamEnd) w =
     Resolved (GetBuildResult.getBuild r)).
Proof.
  destruct (getBuild_connected projectFolder frames StreamEnd w connected)
    as [Ev _].
  split.
  - intros H. rewrite Ev, onEach_no_result by exact H. reflexivity.
  - intros pre r post -> H. rewrite Ev, onEach_last_result by exact H.
    reflexivity.
Qed.

Lemma getBuild_resolves_with_result_or_void_witness :
  eval (getBuild (lit "/p") Opens
          [GetBuildReply.PROGRESS progressA; GetBuildReply.OUTPUT stdoutB;
           GetBuildReply.GET_BUILD_RESULT resultX] StreamEnd) connectedWorld =
  Resolved (Some buildX).
Proof.
  apply (proj2 (getBuild_resolves_with_result_or_void (lit "/p")
                  [GetBuildReply.PROGRESS progressA;
                   GetBuildReply.OUTPUT stdoutB;
                   GetBuildReply.GET_BUILD_RESULT resultX]
                  connectedWorld (h := 0) eq_refl)
           [GetBuildReply.PROGRESS progressA; GetBuildReply.OUTPUT stdoutB]
           resultX []); reflexivity.
Defined.

Lemma getBuild_settle_exec projectFolder build term w :
  exec (getBuild_settle projectFolder build term) w =
  emits (match term with
         | StreamEnd => []
         | StreamError err =>
             [Log LvlError
                (Localized "client.errorGettingBuild"
                   "Error getting build for {0}: {1}"
                   [projectFolder; detailsOrMessage err])]
         end ++ [StatusHide]) w.
Proof.
  destruct term; unfold getBuild_settle, exec, bind, emits; cbn;
    rewrite <- ?app_assoc; reflexivity.
Qed.

Lemma runTask_settle_exec task term w :
  exec (runTask_settle task term) w =
  emits [Log (match term with StreamEnd => LvlInfo | StreamError _ => LvlError end)
           (match term with
            | StreamEnd =>
                Localized "client.completedTask" "Completed task {0}"
                  [script task]
            | StreamError err =>
                Localized "client.errorRunningTask" "Error running task: {0}"
                  [detailsOrMessage err]
            end);
         StatusHide] w.
Proof.
  destruct term; unfold runTask_settle, exec, bind, emits; cbn;
    rewrite <- ?app_assoc; reflexivity.
Qed.

(** C9, as the code has it: whenever [getBuild] gets its stream opened (a
    gRPC client exists and the opening call returns), it has set the
    refreshing text and shown the status bar item before, and hiding the
    item is the last thing it does, whatever the frames and however the
    stream terminates; nothing but the list of calls changes. *)
Theorem getBuild_indicator_shown_then_hidden
  (projectFolder : jsstring) (frames : list GetBuildReply.t) (term : Terminal)
  (w : World) (h : Handle) (connected : grpcClient w = Some h) :
  exists mid,
    exec (getBuild projectFolder Opens frames term) w =
    emits ([StatusText
              (Localized "client.refreshingTasks"
                 "{0} Gradle: Refreshing Tasks" [lit "$(sync~spin)"]);
            StatusShow; OpenGetBuild h projectFolder] ++ mid ++ [StatusHide]) w
    /\ forall before,
         statusShown before
           (effects (exec (getBuild projectFolder Opens frames term) w)) = false.
Proof.
  destruct (getBuild_connected projectFolder frames term w connected)
    as [_ Ex].
  destruct (getBuild_open_connected projectFolder w connected) as [_ Eo].
  cbn zeta in Ex. rewrite Ex, getBuild_settle_exec, Eo.
  destruct (onlyEmits_onEach getBuild_onData onlyEmits_getBuild_onData
              frames None
              (emits [StatusText
                        (Localized "client.refreshingTasks"
                           "{0} Gradle: Refreshing Tasks" [lit "$(sync~spin)"]);
                      StatusShow; OpenGetBuild h projectFolder] w))
    as [l El].
  rewrite El, !emits_emits.
  exists (l ++ match term with
               | StreamEnd => []
               | StreamError err =>
                   [Log LvlError
                      (Localized "client.errorGettingBuild"
                         "Error getting build for {0}: {1}"
                         [projectFolder; detailsOrMessage err])]
               end).
  split.
  - f_equal. now rewrite <- !app_assoc.
  - intros before. cbn [effects emits].
    rewrite !app_assoc. apply statusShown_hidden.
Qed.

Lemma getBuild_indicator_shown_then_hidden_witness :
  exists mid,
    exec (getBuild (lit "/p") Opens [GetBuildReply.PROGRESS progressA]
            (StreamError unavailable)) connectedWorld =
    emits ([StatusText
              (Localized "client.refreshingTasks"
                 "{0} Gradle: Refreshing Tasks" [lit "$(sync~spin)"]);
            StatusShow; OpenGetBuild 0 (lit "/p")] ++ mid ++ [StatusHide])
      connectedWorld
    /\ forall before,
         statusShown before
           (effects
              (exec (getBuild (lit "/p") Opens [GetBuildReply.PROGRESS progressA]
                       (StreamError unavailable)) connectedWorld)) = false.
Proof.
  exact (getBuild_indicator_shown_then_hidden (lit "/p")
           [GetBuildReply.PROGRESS progressA] (StreamError unavailable)
           connectedWorld eq_refl).
Defined.

(** C9 as stated fails: a [getBuild] call on a client that has no gRPC
    client yet shows the indicator and never hides it. *)
Lemma getBuild_before_connect_leaves_indicator_shown :
  ~ (statusShown false
       (effects (exec (getBuild (lit "/p") Opens [] StreamEnd)
                   (constructor 4000))) = false).
Proof. intros H. vm_compute in H. discriminate H. Qed.

(** ** Stream errors *)

Lemma detailsOrMessage_details err d :
  details err = Some d -> d <> [] -> detailsOrMessage err = d.
Proof.
  unfold detailsOrMessage. intros -> Hd. destruct d; [contradiction|reflexivity].
Qed.

Lemma detailsOrMessage_message err :
  details err = None \/ details err = Some [] ->
  detailsOrMessage err = message err.
Proof. unfold detailsOrMessage. now intros [-> | ->]. Qed.

(** C3, as the code has it: when the stream of a [getBuild] or [runTask] call
    on a constructed client terminates with an error, the call does not
    reject: it logs the error at error level, with the error's [details] when
    that is a non-empty string and with its [message] otherwise, hides the
    status bar item and resolves with no value. *)
Theorem stream_error_is_logged_and_call_resolves
  (projectFolder : jsstring) (task : Task) (args : list jsstring)
  (javaDebugPort : option N) (gframes : list GetBuildReply.t)
  (rframes : list RunTaskReply.t) (err : JsError) (w : World) (h : Handle)
  (connected : grpcClient w = Some h) :
  let wg := exec (onEach getBuild_onData None gframes)
              (exec (getBuild_open projectFolder Opens) w) in
  let wr := exec (onEach runTask_onData tt rframes)
              (exec (runTask_open projectFolder task args javaDebugPort Opens) w) in
  eval (getBuild projectFolder Opens gframes (StreamError err)) w = Resolved None /\
  exec (getBuild projectFolder Opens gframes (StreamError err)) w =
    emits [Log LvlError
             (Localized "client.errorGettingBuild"
                "Error getting build for {0}: {1}"
                [projectFolder; detailsOrMessage err]);
           StatusHide] wg /\
  eval (runTask projectFolder task args javaDebugPort Opens rframes
          (StreamError err)) w = Resolved tt /\
  exec (runTask projectFolder task args javaDebugPort Opens rframes
          (StreamError err)) w =
    emits [Log LvlError
             (Localized "client.errorRunningTask" "Error running task: {0}"
                [detailsOrMessage err]);
           StatusHide] wr /\
  (forall d, details err = Some d -> d <> [] -> detailsOrMessage err = d) /\
  (details err = None \/ details err = Some [] ->
   detailsOrMessage err = message err).
Proof.
  intros wg wr.
  destruct (getBuild_connected projectFolder gframes (StreamError err) w
              connected) as [Eg Xg].
  destruct (runTask_connected projectFolder task args javaDebugPort rframes
              (StreamError err) w connected) as [Er Xr].
  cbn zeta in Eg, Xg, Er, Xr.
  split; [|split; [|split; [|split; [|split]]]].
  - rewrite Eg. reflexivity.
  - rewrite Xg, getBuild_settle_exec. reflexivity.
  - rewrite Er. reflexivity.
  - rewrite Xr, runTask_settle_exec. reflexivity.
  - apply detailsOrMessage_details.
  - apply detailsOrMessage_message.
Qed.

Lemma stream_error_is_logged_and_call_resolves_witness :
  eval (getBuild (lit "/p") Opens [] (StreamError unavailable)) connectedWorld =
    Resolved None /\
  eval (runTask (lit "/p") taskT1 [] None Opens [] (StreamError unavailable))
    connectedWorld = Resolved tt /\
  detailsOrMessage unavailable = lit "failed to connect to all addresses".
Proof.
  destruct (stream_error_is_logged_and_call_resolves (lit "/p") taskT1 []
              None [] [] unavailable connectedWorld (h := 0) eq_refl)
    as (Hg & _ & Hr & _ & Hd & _).
  split; [|split].
  - exact Hg.
  - exact Hr.
  - apply Hd; [reflexivity|discriminate].
Defined.

(** C3 as stated fails: a [getBuild] call whose stream terminates with a
    transport error is not rejected. *)
Lemma getBuild_stream_error_not_rejected :
  ~ exists e,
      eval (getBuild (lit "/p") Opens [] (StreamError unavailable)) connectedWorld =
      Rejected e.
Proof. intros [e H]. vm_compute in H. discriminate H. Qed.

(** ** Output on a task stream *)

(** C4, as the code has it: an Output frame on a [runTask] stream is handed,
    as received, to the caller's [onOutput] and to nothing else; the log sink
    and the status sink are not written. *)
Theorem runTask_output_goes_to_caller_only (o : Output.t) (w : World) :
  let w' := exec (runTask_onData tt (RunTaskReply.OUTPUT o)) w in
  w' = emits [OnOutput o] w /\
  forwardedOutputs (effects w') = forwardedOutputs (effects w) ++ [o] /\
  logged (effects w') = logged (effects w) /\
  statusTexts (effects w') = statusTexts (effects w).
Proof.
  cbn zeta. split; [reflexivity|].
  assert (E : effects (exec (runTask_onData tt (RunTaskReply.OUTPUT o)) w) =
              effects w ++ [OnOutput o]) by reflexivity.
  rewrite E. unfold forwardedOutputs, logged, statusTexts.
  rewrite !observe_app. cbn. rewrite !app_nil_r. auto.
Qed.

(** C4 as stated fails: the Output frame [stdoutB] of a task stream reaches
    the caller's sink, and no log entry is written for it. *)
Lemma runTask_output_not_logged :
  ~ (let w' := exec (runTask_onData tt (RunTaskReply.OUTPUT stdoutB))
                 connectedWorld in
     forwardedOutputs (effects w') =
       forwardedOutputs (effects connectedWorld) ++ [stdoutB] /\
     exists lvl t,
       logged (effects w') = logged (effects connectedWorld) ++ [(lvl, t)]).
Proof. intros [_ (lvl & t & H)]. vm_compute in H. discriminate H. Qed.

(** ** Disposal *)

Lemma dispose_exec (w : World) :
  exec dispose w =
  emits (match grpcClient w with
         | Some h => [Close h; DisposeOnConnect]
         | None => [DisposeOnConnect]
         end) w.
Proof.
  unfold dispose, closeGrpcClient, exec, bind, getGrpcClient, emits. cbn.
  destruct (grpcClient w) eqn:E; cbn; rewrite <- ?app_assoc, ?E; reflexivity.
Qed.

(** C7, as the code has it: every [dispose()] closes the gRPC client the
    field holds, if any, and disposes the emitter; the field is left as it
    is, so a second [dispose()] closes the same client a second time. *)
Theorem dispose_twice_closes_twice (w : World) :
  exec (dispose ;; dispose) w =
  emits (match grpcClient w with
         | Some h => [Close h; DisposeOnConnect; Close h; DisposeOnConnect]
         | None => [DisposeOnConnect; DisposeOnConnect]
         end) w.
Proof.
  rewrite exec_bind, !dispose_exec, emits_emits.
  cbn [grpcClient emits]. now destruct (grpcClient w).
Qed.

(** C7 as stated fails: two [dispose()] calls on a connected client close
    its transport twice, and the second call adds to what the first did. *)
Lemma dispose_twice_not_idempotent :
  ~ (List.length (closes (effects (exec (dispose ;; dispose) connectedWorld)))
     = 1 /\
     exec (dispose ;; dispose) connectedWorld = exec dispose connectedWorld).
Proof. intros [H _]. vm_compute in H. discriminate H. Qed.

(** ** Calls on a client that has no gRPC client yet *)

(** C8, as the code has it: with [grpcClient] still [null], every operation
    evaluates [this.grpcClient!.<method>] and so raises the runtime's
    TypeError.  [getBuild] and [runTask] raise it before their [try]: the
    call rejects with it, and the status bar item they showed stays shown.
    The three cancel operations raise it inside their [try]: it is logged at
    error level and the call resolves. *)
Theorem null_client_is_dereferenced
  (w : World) (disconnected : grpcClient w = None)
  (projectFolder taskName : jsstring) (task : Task) (args : list jsstring)
  (javaDebugPort : option N) (gframes : list GetBuildReply.t)
  (rframes : list RunTaskReply.t) (term : Terminal)
  (a1 : Unary CancelRunTaskReply.t) (a2 : Unary CancelRunTasksReply.t)
  (a3 : Unary CancelGetBuildsReply.t) (opening : Opening) :
  getBuild projectFolder opening gframes term w =
    (Rejected (nullDeref "getBuild"),
     emits [StatusText
              (Localized "client.refreshingTasks"
                 "{0} Gradle: Refreshing Tasks" [lit "$(sync~spin)"]);
            StatusShow] w) /\
  runTask projectFolder task args javaDebugPort opening rframes term w =
    (Rejected (nullDeref "runTask"), emits [StatusShow] w) /\
  cancelRunTask projectFolder taskName a1 w =
    (Resolved tt,
     emits [Log LvlError
              (Localized "client.errorCancellingRunningTask"
                 "Error cancelling running task: {0}"
                 [message (nullDeref "cancelRunTask")])] w) /\
  cancelRunTasks a2 w =
    (Resolved tt,
     emits [Log LvlError
              (Localized "client.errorCancellingRunningTasks"
                 "Error cancelling running tasks: {0}"
                 [message (nullDeref "cancelRunTasks")])] w) /\
  cancelGetBuilds a3 w =
    (Resolved tt,
     emits [Log LvlError
              (Localized "client.errorCancellingGetBuilds"
                 "Error cancelling get builds: {0}"
                 [message (nullDeref "cancelGetBuilds")])] w) /\
  (forall member, name (nullDeref member) = TypeError).
Proof.
  destruct w as [dl g tries maxTries port next pending called].
  cbn in disconnected. subst g.
  unfold getBuild, getBuild_open, runTask, runTask_open, cancelRunTask,
    cancelRunTasks, cancelGetBuilds, bind, getGrpcClient, emits, ret.
  cbn. rewrite <- !app_assoc. cbn.
  split; [|split; [|split; [|split; [|split]]]]; reflexivity.
Qed.

Lemma null_client_is_dereferenced_witness :
  eval (getBuild (lit "/p") Opens [] StreamEnd) (constructor 4000) =
    Rejected (nullDeref "getBuild") /\
  eval (cancelRunTasks (UnaryReply {| CancelRunTasksReply.getMessage := [] |}))
    (constructor 4000) = Resolved tt.
Proof.
  destruct (null_client_is_dereferenced (constructor 4000) eq_refl
              (lit "/p") (lit "t1") taskT1 [] None [] [] StreamEnd
              (UnaryError unavailable)
              (UnaryReply {| CancelRunTasksReply.getMessage := [] |})
              (UnaryError unavailable) Opens)
    as (Hg & _ & _ & Hc & _).
  unfold eval. rewrite Hg, Hc. split; reflexivity.
Defined.

(** C8 as stated fails: [cancelRunTask] on a client that never connected
    does not fail; it resolves. *)
Lemma cancelRunTask_null_client_not_rejected :
  ~ exists e,
      eval (cancelRunTask (lit "/p") (lit "t1") (UnaryError unavailable))
        (constructor 4000) = Rejected e.
Proof. intros [e H]. vm_compute in H. discriminate H. Qed.

(** ** Cancellation bookkeeping *)

Lemma cancelRunTask_reply_effects projectFolder task msg running w h :
  grpcClient w = Some h ->
  effects
    (exec (cancelRunTask projectFolder task
             (UnaryReply {| CancelRunTaskReply.getMessage := msg;
                            CancelRunTaskReply.getTaskRunning := running |})) w)
  = effects w ++
    [CallCancelRunTask h projectFolder task; Log LvlDebug (Raw msg)] ++
    (if running then [] else [HandleCancelledTask task projectFolder]).
Proof.
  destruct w as [dl g tries maxTries port next pending called].
  cbn. intros ->. destruct running; cbn; rewrite <- !app_assoc; reflexivity.
Qed.

Lemma handleRunTaskCancelled_effects c w :
  effects (exec (handleRunTaskCancelled c) w) =
  effects w ++
    [Log LvlInfo
       (Localized "client.runTaskCancelled" "Task cancelled: {0}"
          [Cancelled.getMessage c]);
     HandleCancelledTask (Cancelled.getTask c) (Cancelled.getProjectDir c)].
Proof. cbn. now rewrite <- app_assoc. Qed.

(** C2, as the code has it: the client keeps no marker per task identity.
    Every [cancelRunTask] reply with [taskRunning = false] calls
    [handleCancelledTask] once, every Cancelled frame of a task stream calls
    it once, both whatever happened before; a reply with [taskRunning = true]
    does not call it. *)
Theorem bookkeeping_once_per_trigger
  (w : World) (h : Handle) (connected : grpcClient w = Some h)
  (projectFolder task msg : jsstring) (c : Cancelled.t) :
  let reply running :=
    UnaryReply {| CancelRunTaskReply.getMessage := msg;
                  CancelRunTaskReply.getTaskRunning := running |} in
  bookkeeping (effects (exec (cancelRunTask projectFolder task (reply false)) w))
    = bookkeeping (effects w) ++ [(task, projectFolder)] /\
  bookkeeping (effects (exec (cancelRunTask projectFolder task (reply true)) w))
    = bookkeeping (effects w) /\
  bookkeeping (effects (exec (runTask_onData tt (RunTaskReply.CANCELLED c)) w))
    = bookkeeping (effects w) ++ [(Cancelled.getTask c, Cancelled.getProjectDir c)].
Proof.
  cbv beta zeta. change (runTask_onData tt (RunTaskReply.CANCELLED c))
    with (handleRunTaskCancelled c).
  rewrite !(cancelRunTask_reply_effects _ _ _ _ w connected).
  rewrite handleRunTaskCancelled_effects.
  unfold bookkeeping. rewrite !observe_app. cbn. rewrite !app_nil_r.
  split; [|split]; reflexivity.
Qed.

Lemma bookkeeping_once_per_trigger_witness :
  bookkeeping (effects (exec (cancelRunTask (lit "/p") (lit "t1") notRunning)
                          connectedWorld)) = [(lit "t1", lit "/p")].
Proof.
  exact (proj1 (bookkeeping_once_per_trigger connectedWorld (h := 0)
                  eq_refl (lit "/p") (lit "t1") (lit "Task is not running")
                  cancelledT1)).
Defined.

(** C2 as stated fails: in [cancelEpisode] the registry is called twice for
    the identity (t1, /p). *)
Lemma bookkeeping_fires_twice_in_one_episode :
  ~ (List.length (bookkeeping (effects (lifetime cancelEpisode connectedWorld)))
     <= 1).
Proof. vm_compute. intros H. inversion H as [|? H']. inversion H'. Qed.

(** ** Connecting: retries and the restart prompt *)

Lemma connectToServer_constructed (w : World) :
  exec (connectToServer Constructed) w =
  {| connectDeadline := connectDeadline w;
     grpcClient := Some (nextHandle w);
     connectTries := connectTries w;
     maxConnectTries := maxConnectTries w;
     serverPort := serverPort w;
     nextHandle := S (nextHandle w);
     pendingReady := pendingReady w ++ [nextHandle w];
     effects := effects w ++
       [NewGrpcClient (serverPort w);
        WaitForReady (nextHandle w) (connectDeadline w)] |}.
Proof.
  unfold connectToServer, exec, bind. cbn. now rewrite <- app_assoc.
Qed.

Lemma connectToServer_throws (err : JsError) (w : World) :
  exec (connectToServer (CtorThrows err)) w =
  emits [NewGrpcClient (serverPort w);
         Log LvlError
           (Localized "client.grpcClientConstructionError"
              "Unable to construct the gRPC client: {0}" [message err]);
         StatusHide] w.
Proof.
  unfold connectToServer, exec, bind, emits. cbn. now rewrite <- !app_assoc.
Qed.

Lemma handleConnectError_unfold (e : JsError) (ctor : CtorOutcome) (w : World) :
  handleConnectError e ctor w =
  (if connectTries w <? maxConnectTries w then
     incrConnectTries ;; closeGrpcClient ;; connectToServer ctor
   else
     logger_error
       (Localized "client.errorConnectingToServer"
          "Error connecting to gradle server: {0}" [message e]) ;;
     emit ShowRestartMessage) w.
Proof. reflexivity. Qed.

(** A failure reported while tries remain: the counter goes up, the client
    in the field is closed and a new connect attempt starts. *)
Lemma handleConnectError_retry (e : JsError) (w : World) :
  connectTries w < maxConnectTries w ->
  exec (handleConnectError e Constructed) w =
  {| connectDeadline := connectDeadline w;
     grpcClient := Some (nextHandle w);
     connectTries := connectTries w + 1;
     maxConnectTries := maxConnectTries w;
     serverPort := serverPort w;
     nextHandle := S (nextHandle w);
     pendingReady := pendingReady w ++ [nextHandle w];
     effects := effects w ++
       match grpcClient w with Some g => [Close g] | None => [] end ++
       [NewGrpcClient (serverPort w);
        WaitForReady (nextHandle w) (connectDeadline w)] |}.
Proof.
  intros H. apply Nat.ltb_lt in H.
  unfold exec at 1. rewrite handleConnectError_unfold, H.
  change (snd ((incrConnectTries ;; closeGrpcClient ;;
                connectToServer Constructed) w))
    with (exec (connectToServer Constructed)
            (exec closeGrpcClient (exec incrConnectTries w))).
  rewrite connectToServer_constructed.
  unfold closeGrpcClient, exec, bind, getGrpcClient. cbn.
  destruct (grpcClient w); cbn; rewrite <- ?app_assoc, ?app_nil_r; reflexivity.
Qed.

(** A failure reported once the tries are used up: it is logged and the
    restart prompt is shown; nothing else happens. *)
Lemma handleConnectError_exhausted (e : JsError) (ctor : CtorOutcome)
  (w : World) :
  maxConnectTries w <= connectTries w ->
  exec (handleConnectError e ctor) w =
  emits [Log LvlError
           (Localized "client.errorConnectingToServer"
              "Error connecting to gradle server: {0}" [message e]);
         ShowRestartMessage] w.
Proof.
  intros H. apply Nat.ltb_ge in H.
  unfold exec. rewrite handleConnectError_unfold, H.
  unfold bind, emits. cbn. now rewrite <- app_assoc.
Qed.

Lemma failing_shift env : failing env -> failing (fun i => env (S i)).
Proof. intros H i. apply H. Qed.

Lemma eventLoop_quiet fuel env w : pendingReady w = [] -> eventLoop fuel env w = w.
Proof. intros H. destruct fuel; simpl; [|rewrite H]; reflexivity. Qed.

Lemma deliverReady_error (e : JsError) (ctor : CtorOutcome) (w : World) :
  exec (deliverReady {| readyError := Some e; retryCtor := ctor |}) w =
  exec (handleConnectError e ctor) (exec popPendingReady w).
Proof. reflexivity. Qed.

Lemma failing_head env :
  failing env ->
  exists e, env 0 = {| readyError := Some e; retryCtor := Constructed |}.
Proof.
  intros H. destruct (H 0) as [He Hc]. destruct (env 0) as [re rc].
  cbn in He, Hc. subst rc. destruct re as [e|]; [now exists e|contradiction].
Qed.

Lemma counts_app (w : World) (l l' : list Effect) :
  effects w = l ++ l' ->
  attemptsMade w =
    List.length (connectAttempts l) + List.length (connectAttempts l') /\
  promptsShown w =
    List.length (restartPrompts l) + List.length (restartPrompts l') /\
  closesMade w = List.length (closes l) + List.length (closes l').
Proof.
  unfold attemptsMade, promptsShown, closesMade, connectAttempts,
    restartPrompts, closes.
  intros ->. rewrite !observe_app, !length_app. auto.
Qed.

Lemma deliverReady_retry (e : JsError) (w : World) (h g : Handle) :
  pendingReady w = [h] ->
  grpcClient w = Some g ->
  connectTries w < maxConnectTries w ->
  exec (deliverReady {| readyError := Some e; retryCtor := Constructed |}) w =
  {| connectDeadline := connectDeadline w;
     grpcClient := Some (nextHandle w);
     connectTries := connectTries w + 1;
     maxConnectTries := maxConnectTries w;
     serverPort := serverPort w;
     nextHandle := S (nextHandle w);
     pendingReady := [nextHandle w];
     effects := effects w ++
       [Close g; NewGrpcClient (serverPort w);
        WaitForReady (nextHandle w) (connectDeadline w)] |}.
Proof.
  intros Hp Hg Ht. rewrite deliverReady_error, handleConnectError_retry
    by exact Ht.
  cbn. rewrite Hp, Hg. reflexivity.
Qed.

Lemma deliverReady_exhausted (e : JsError) (ctor : CtorOutcome) (w : World)
  (h : Handle) :
  pendingReady w = [h] ->
  maxConnectTries w <= connectTries w ->
  exec (deliverReady {| readyError := Some e; retryCtor := ctor |}) w =
  {| connectDeadline := connectDeadline w;
     grpcClient := grpcClient w;
     connectTries := connectTries w;
     maxConnectTries := maxConnectTries w;
     serverPort := serverPort w;
     nextHandle := nextHandle w;
     pendingReady := [];
     effects := effects w ++
       [Log LvlError
          (Localized "client.errorConnectingToServer"
             "Error connecting to gradle server: {0}" [message e]);
        ShowRestartMessage] |}.
Proof.
  intros Hp Ht. rewrite deliverReady_error, handleConnectError_exhausted
    by exact Ht.
  unfold emits. cbn. rewrite Hp. reflexivity.
Qed.

(** With [k] tries left, one callback pending and every readiness reported
    as an error, the loop makes [k] more connect attempts, closing the failed
    client before each, then shows the restart prompt and has nothing left
    to call. *)
Lemma eventLoop_failing (k : nat) : forall fuel env w h g,
  failing env ->
  pendingReady w = [h] ->
  grpcClient w = Some g ->
  connectTries w + k = maxConnectTries w ->
  k < fuel ->
  let w' := eventLoop fuel env w in
  pendingReady w' = [] /\
  attemptsMade w' = attemptsMade w + k /\
  promptsShown w' = promptsShown w + 1 /\
  closesMade w' = closesMade w + k /\
  connectTries w' = maxConnectTries w /\
  maxConnectTries w' = maxConnectTries w /\
  exists l, effects w' = l ++ [ShowRestartMessage].
Proof.
  induction k as [|k IH]; intros fuel env w h g Hf Hp Hg Ht Hfuel;
    (destruct fuel as [|fuel]; [lia|]);
    destruct (failing_head Hf) as [e He];
    cbn zeta; simpl eventLoop; rewrite Hp, He.
  - rewrite (deliverReady_exhausted e Constructed w Hp) by lia.
    rewrite eventLoop_quiet by reflexivity.
    match goal with |- context [attemptsMade ?w1] =>
      destruct (counts_app w1 (effects w) _ eq_refl) as (Ea & Er & Ec)
    end.
    rewrite Ea, Er, Ec. cbn.
    repeat split; try reflexivity; try lia.
    exists (effects w ++
            [Log LvlError
               (Localized "client.errorConnectingToServer"
                  "Error connecting to gradle server: {0}" [message e])]).
    now rewrite <- app_assoc.
  - rewrite (deliverReady_retry e w Hp Hg) by lia.
    match goal with |- context [eventLoop fuel ?env' ?w1] =>
      destruct (IH fuel env' w1 (nextHandle w) (nextHandle w)
                  (failing_shift Hf) eq_refl eq_refl)
        as (I1 & I2 & I3 & I4 & I5 & I6 & I7);
      [cbn; lia | lia |];
      destruct (counts_app w1 (effects w) _ eq_refl) as (Ea & Er & Ec)
    end.
    rewrite I2, I3, I4, Ea, Er, Ec. cbn in I5, I6 |- *.
    unfold attemptsMade, promptsShown, closesMade.
    repeat split; try assumption; try lia.
Qed.

Lemma handleServerReady_constructed (w : World) :
  exec (handleServerReady Constructed) w =
  {| connectDeadline := connectDeadline w;
     grpcClient := Some (nextHandle w);
     connectTries := connectTries w;
     maxConnectTries := maxConnectTries w;
     serverPort := serverPort w;
     nextHandle := S (nextHandle w);
     pendingReady := pendingReady w ++ [nextHandle w];
     effects := effects w ++
       [StatusText (Raw (lit "$(sync~spin) Gradle: Connecting"));
        StatusShow;
        Log LvlDebug
          (Localized "client.connecting"
             "Gradle client connecting to server" []);
        NewGrpcClient (serverPort w);
        WaitForReady (nextHandle w) (connectDeadline w)] |}.
Proof.
  unfold handleServerReady, logger_debug.
  rewrite !exec_bind, connectToServer_constructed, !exec_emit, !emits_emits.
  unfold emits. cbn -[lit]. now rewrite <- app_assoc.
Qed.

Lemma closes_retryCalls port secs k : forall h,
  closes (flat_map (retryCalls port secs) (seq h k)) = seq h k.
Proof.
  induction k as [|k IH]; intros h; [reflexivity|].
  simpl. now rewrite IH.
Qed.

(** The calls of the loop of [eventLoop_failing], one by one. *)
Lemma eventLoop_failing_calls (k : nat) : forall fuel env w h,
  failing env ->
  pendingReady w = [h] ->
  grpcClient w = Some h ->
  nextHandle w = S h ->
  connectTries w + k = maxConnectTries w ->
  k < fuel ->
  exists e,
    readyError (env k) = Some e /\
    effects (eventLoop fuel env w) =
    effects w ++
    flat_map (retryCalls (serverPort w) (connectDeadline w)) (seq h k) ++
    [Log LvlError
       (Localized "client.errorConnectingToServer"
          "Error connecting to gradle server: {0}" [message e]);
     ShowRestartMessage].
Proof.
  induction k as [|k IH]; intros fuel env w h Hf Hp Hg Hn Ht Hfuel;
    (destruct fuel as [|fuel]; [lia|]);
    destruct (failing_head Hf) as [e He];
    simpl eventLoop; rewrite Hp, He.
  - rewrite (deliverReady_exhausted e Constructed w Hp) by lia.
    rewrite eventLoop_quiet by reflexivity.
    exists e. split; reflexivity.
  - rewrite (deliverReady_retry e w Hp Hg) by lia.
    match goal with |- context [eventLoop fuel ?env' ?w1] =>
      destruct (IH fuel env' w1 (nextHandle w) (failing_shift Hf)
                  eq_refl eq_refl eq_refl) as (e' & He' & Ee');
      [cbn; lia | lia |]
    end.
    exists e'. split; [exact He'|].
    rewrite Ee'. cbn [effects serverPort connectDeadline].
    rewrite Hn. cbn [seq flat_map retryCalls app].
    now rewrite <- app_assoc.
Qed.

(** C1, as the code has it: on a client that has not retried yet, when every
    readiness wait fails, the first connect attempt is followed by
    [maxConnectTries] retries -- 6 attempts for the 5 of the class -- each
    retry first closing the client that has just failed and then
    constructing and awaiting the next one; the restart prompt is then shown
    once, as the last call, and no callback is left pending: the loop has
    nothing more to run. *)
Theorem connect_retries_then_restart_prompt
  (w : World) (env : nat -> Readiness) (fuel : nat)
  (fresh : connectTries w = 0) (idle : pendingReady w = [])
  (allFail : failing env) (enough : maxConnectTries w < fuel) :
  let w' := eventLoop fuel env (exec (handleServerReady Constructed) w) in
  attemptsMade w' = attemptsMade w + (maxConnectTries w + 1) /\
  promptsShown w' = promptsShown w + 1 /\
  closesMade w' = closesMade w + maxConnectTries w /\
  (exists l, effects w' = l ++ [ShowRestartMessage]) /\
  pendingReady w' = [] /\
  (forall fuel' env', eventLoop fuel' env' w' = w') /\
  (exists e,
     readyError (env (maxConnectTries w)) = Some e /\
     effects w' =
     effects w ++
     connectingCalls (serverPort w) (connectDeadline w) (nextHandle w) ++
     flat_map (retryCalls (serverPort w) (connectDeadline w))
       (seq (nextHandle w) (maxConnectTries w)) ++
     [Log LvlError
        (Localized "client.errorConnectingToServer"
           "Error connecting to gradle server: {0}" [message e]);
      ShowRestartMessage]) /\
  closes (effects w') =
    closes (effects w) ++ seq (nextHandle w) (maxConnectTries w).
Proof.
  rewrite handleServerReady_constructed, idle. cbn [app].
  match goal with |- context [eventLoop fuel env ?w1] =>
    destruct (@eventLoop_failing (maxConnectTries w) fuel env w1
                (nextHandle w) (nextHandle w) allFail eq_refl eq_refl)
      as (I1 & I2 & I3 & I4 & I5 & I6 & I7);
    [cbn; lia | exact enough |];
    destruct (@eventLoop_failing_calls (maxConnectTries w) fuel env w1
                (nextHandle w) allFail eq_refl eq_refl eq_refl)
      as (e & He & Ee);
    [cbn; lia | exact enough |];
    destruct (counts_app w1 (effects w) _ eq_refl) as (Ea & Er & Ec)
  end.
  cbn zeta. rewrite I2, I3, I4, Ea, Er, Ec. cbn [List.length connectAttempts
    restartPrompts closes observe flat_map app].
  unfold attemptsMade, promptsShown, closesMade.
  split; [lia|]. split; [lia|]. split; [lia|]. split; [exact I7|].
  split; [exact I1|]. split; [intros fuel' env'; now apply eventLoop_quiet|].
  cbn [effects serverPort connectDeadline] in Ee.
  assert (Et : effects
                 (eventLoop fuel env
                    {| connectDeadline := connectDeadline w;
                       grpcClient := Some (nextHandle w);
                       connectTries := connectTries w;
                       maxConnectTries := maxConnectTries w;
                       serverPort := serverPort w;
                       nextHandle := S (nextHandle w);
                       pendingReady := [nextHandle w];
                       effects := effects w ++
                         connectingCalls (serverPort w) (connectDeadline w)
                           (nextHandle w) |}) =
               effects w ++
               connectingCalls (serverPort w) (connectDeadline w)
                 (nextHandle w) ++
               flat_map (retryCalls (serverPort w) (connectDeadline w))
                 (seq (nextHandle w) (maxConnectTries w)) ++
               [Log LvlError
                  (Localized "client.errorConnectingToServer"
                     "Error connecting to gradle server: {0}" [message e]);
                ShowRestartMessage]).
  { unfold connectingCalls. rewrite Ee. now rewrite <- app_assoc. }
  unfold connectingCalls in Et.
  split.
  - exists e. split; [exact He|]. exact Et.
  - change (eventLoop fuel env _) with
      (eventLoop fuel env
         {| connectDeadline := connectDeadline w;
            grpcClient := Some (nextHandle w);
            connectTries := connectTries w;
            maxConnectTries := maxConnectTries w;
            serverPort := serverPort w;
            nextHandle := S (nextHandle w);
            pendingReady := [nextHandle w];
            effects := effects w ++
              connectingCalls (serverPort w) (connectDeadline w)
                (nextHandle w) |}).
    unfold connectingCalls. rewrite Et. unfold closes.
    rewrite !observe_app.
    change (observe (fun e0 => match e0 with Close h0 => Some h0 | _ => None end))
      with closes.
    rewrite closes_retryCalls. cbn. now rewrite !app_nil_r.
Qed.

Lemma connect_retries_then_restart_prompt_witness :
  let w' := eventLoop 6 alwaysDeadline
              (exec (handleServerReady Constructed) (constructor 4000)) in
  attemptsMade w' = 6 /\ promptsShown w' = 1.
Proof.
  destruct (@connect_retries_then_restart_prompt (constructor 4000)
              alwaysDeadline 6 eq_refl eq_refl)
    as (Ha & Hp & _).
  - intros i. split; [discriminate|reflexivity].
  - cbn. lia.
  - split; [exact Ha|exact Hp].
Defined.

(** C1 as stated fails: with the 5 of the class and every readiness wait
    failing, the sixth connect attempt is made before the restart prompt. *)
Lemma connect_attempted_six_times_not_five :
  ~ (let w' := eventLoop 100 alwaysDeadline
                 (exec (handleServerReady Constructed) (constructor 4000)) in
     attemptsMade w' = 5 /\ promptsShown w' = 1).
Proof. intros [H _]. vm_compute in H. discriminate H. Qed.

(** ** The retry counter over the life of the client *)

Lemma onlyEmits_closeGrpcClient : onlyEmits closeGrpcClient.
Proof. unfold closeGrpcClient. frame_emits. Qed.

Lemma connectToServer_tries (ctor : CtorOutcome) (w : World) :
  connectTries (exec (connectToServer ctor) w) = connectTries w /\
  maxConnectTries (exec (connectToServer ctor) w) = maxConnectTries w.
Proof.
  destruct ctor;
    [rewrite connectToServer_constructed|rewrite connectToServer_throws];
    split; reflexivity.
Qed.

Lemma handleServerReady_tries (ctor : CtorOutcome) (w : World) :
  connectTries (exec (handleServerReady ctor) w) = connectTries w /\
  maxConnectTries (exec (handleServerReady ctor) w) = maxConnectTries w.
Proof.
  unfold handleServerReady, logger_debug.
  rewrite !exec_bind, !exec_emit.
  destruct (connectToServer_tries ctor
              (emits [Log LvlDebug
                        (Localized "client.connecting"
                           "Gradle client connecting to server" [])]
                 (emits [StatusShow]
                    (emits [StatusText
                              (Raw (lit "$(sync~spin) Gradle: Connecting"))]
                       w)))) as [-> ->].
  split; reflexivity.
Qed.

Lemma handleConnectError_retry_exec (e : JsError) (ctor : CtorOutcome)
  (w : World) :
  connectTries w < maxConnectTries w ->
  exec (handleConnectError e ctor) w =
  exec (connectToServer ctor) (exec closeGrpcClient (exec incrConnectTries w)).
Proof.
  intros H. apply Nat.ltb_lt in H.
  unfold exec at 1. rewrite handleConnectError_unfold, H. reflexivity.
Qed.

Lemma handleConnectError_tries (e : JsError) (ctor : CtorOutcome) (w : World) :
  connectTries w <= connectTries (exec (handleConnectError e ctor) w) /\
  maxConnectTries (exec (handleConnectError e ctor) w) = maxConnectTries w.
Proof.
  destruct (Nat.ltb_spec (connectTries w) (maxConnectTries w)) as [Hlt|Hge].
  - rewrite handleConnectError_retry_exec by exact Hlt.
    destruct (connectToServer_tries ctor
                (exec closeGrpcClient (exec incrConnectTries w))) as [-> ->].
    destruct (onlyEmits_connectTries (exec incrConnectTries w)
                onlyEmits_closeGrpcClient) as [-> ->].
    cbn. split; [lia|reflexivity].
  - rewrite handleConnectError_exhausted by exact Hge.
    cbn. split; [lia|reflexivity].
Qed.

Lemma deliverReady_tries (r : Readiness) (w : World) :
  connectTries w <= connectTries (exec (deliverReady r) w) /\
  maxConnectTries (exec (deliverReady r) w) = maxConnectTries w.
Proof.
  destruct r as [[e|] ctor].
  - rewrite deliverReady_error.
    apply (handleConnectError_tries e ctor (exec popPendingReady w)).
  - cbn. split; [lia|reflexivity].
Qed.

Lemma perform_tries (a : Action) (w : World) :
  connectTries w <= connectTries (perform a w) /\
  maxConnectTries (perform a w) = maxConnectTries w.
Proof.
  assert (frame : forall A (c : M A), onlyEmits c ->
            connectTries w <= connectTries (exec c w) /\
            maxConnectTries (exec c w) = maxConnectTries w).
  { intros A c H. destruct (onlyEmits_connectTries w H) as [-> ->].
    split; [lia|reflexivity]. }
  destruct a; simpl perform.
  - destruct (handleServerReady_tries ctor w) as [-> ->].
    split; [lia|reflexivity].
  - split; [cbn; lia|reflexivity].
  - apply deliverReady_tries.
  - apply frame, onlyEmits_getBuild_open.
  - apply frame, onlyEmits_getBuild_onData.
  - apply frame, onlyEmits_getBuild_settle.
  - apply frame, onlyEmits_runTask_open.
  - apply frame, onlyEmits_runTask_onData.
  - apply frame, onlyEmits_runTask_settle.
  - apply frame, onlyEmits_cancelRunTask.
  - apply frame, onlyEmits_cancelRunTasks.
  - apply frame, onlyEmits_cancelGetBuilds.
  - apply frame, onlyEmits_dispose.
Qed.




(** * Further properties *)

(** ** Streams: what is called, frame by frame *)

Lemma handleProgress_exec p w :
  exec (handleProgress p) w = emits (handleProgress_calls p) w.
Proof.
  unfold handleProgress, handleProgress_calls.
  destruct (truthy _); [reflexivity|]. now rewrite exec_ret, emits_nil.
Qed.

Lemma handleOutput_exec o w :
  exec (handleOutput o) w = emits (handleOutput_calls o) w.
Proof.
  unfold handleOutput, handleOutput_calls.
  destruct (truthy _).
  - now destruct (Output.getOutputType o).
  - now rewrite exec_ret, emits_nil.
Qed.

Lemma getBuild_onData_exec build reply w :
  exec (getBuild_onData build reply) w = emits (getBuild_calls reply) w.
Proof.
  destruct reply; simpl getBuild_onData; simpl getBuild_calls;
    rewrite ?exec_bind, ?exec_ret, ?handleProgress_exec, ?handleOutput_exec,
      ?emits_nil; reflexivity.
Qed.

Lemma runTask_onData_exec u reply w :
  exec (runTask_onData u reply) w = emits (runTask_calls reply) w.
Proof.
  destruct reply; simpl runTask_onData; simpl runTask_calls;
    rewrite ?handleProgress_exec, ?handleRunTaskCancelled_effects,
      ?exec_ret, ?emits_nil; try reflexivity.
  unfold handleRunTaskCancelled, logger_info.
  now rewrite exec_bind, !exec_emit, emits_emits.
Qed.

Lemma onEach_getBuild_exec frames : forall build w,
  exec (onEach getBuild_onData build frames) w =
  emits (flat_map getBuild_calls frames) w.
Proof.
  induction frames as [|f frames IH]; intros build w; simpl.
  - now rewrite exec_ret, emits_nil.
  - now rewrite exec_bind, getBuild_onData_exec, IH, emits_emits.
Qed.

Lemma onEach_runTask_exec frames : forall u w,
  exec (onEach runTask_onData u frames) w =
  emits (flat_map runTask_calls frames) w.
Proof.
  induction frames as [|f frames IH]; intros u w; simpl.
  - now rewrite exec_ret, emits_nil.
  - now rewrite exec_bind, runTask_onData_exec, IH, emits_emits.
Qed.

Lemma getBuild_null projectFolder opening frames term w :
  grpcClient w = None ->
  exec (getBuild projectFolder opening frames term) w =
  emits [StatusText
           (Localized "client.refreshingTasks" "{0} Gradle: Refreshing Tasks"
              [lit "$(sync~spin)"]);
         StatusShow] w.
Proof.
  destruct w as [dl g tries maxTries port next pending called].
  cbn. intros ->. unfold getBuild, getBuild_open, exec, bind, emits. cbn.
  now rewrite <- app_assoc.
Qed.

(** The call that opens the stream throws: the exception leaves [getBuild]
    before its [try] block, so the call rejects with it and the status bar
    item, already shown, is not hidden. *)
Lemma getBuild_throws projectFolder err frames term w h :
  grpcClient w = Some h ->
  getBuild projectFolder (OpenThrows err) frames term w =
  (Rejected err,
   emits [StatusText
            (Localized "client.refreshingTasks" "{0} Gradle: Refreshing Tasks"
               [lit "$(sync~spin)"]);
          StatusShow] w).
Proof.
  destruct w as [dl g tries maxTries port next pending called].
  cbn. intros ->. unfold getBuild, getBuild_open, exec, bind, emits, ret. cbn.
  now rewrite <- app_assoc.
Qed.

Lemma runTask_throws projectFolder task args javaDebugPort err frames term w h :
  grpcClient w = Some h ->
  runTask projectFolder task args javaDebugPort (OpenThrows err) frames term w =
  (Rejected err, emits [StatusShow] w).
Proof.
  destruct w as [dl g tries maxTries port next pending called].
  cbn. intros ->. reflexivity.
Qed.

(** X1: whenever a [getBuild] call gets its stream opened (a gRPC client
    exists and the opening call returns), it makes exactly these calls, in
    this order: the refreshing text, show, the opening of the stream, the
    calls of each frame in arrival order (a status text for a Progress frame
    and a log entry for an Output frame unless the trimmed message is empty,
    an info log entry for a Cancelled frame, nothing for a Result frame),
    the error log entry if the stream failed, and hide. *)
Theorem getBuild_calls_in_arrival_order
  (projectFolder : jsstring) (frames : list GetBuildReply.t) (term : Terminal)
  (w : World) (h : Handle) (connected : grpcClient w = Some h) :
  exec (getBuild projectFolder Opens frames term) w =
  emits ([StatusText
            (Localized "client.refreshingTasks" "{0} Gradle: Refreshing Tasks"
               [lit "$(sync~spin)"]);
          StatusShow; OpenGetBuild h projectFolder] ++
         flat_map getBuild_calls frames ++
         match term with
         | StreamEnd => []
         | StreamError err =>
             [Log LvlError
                (Localized "client.errorGettingBuild"
                   "Error getting build for {0}: {1}"
                   [projectFolder; detailsOrMessage err])]
         end ++ [StatusHide]) w.
Proof.
  destruct (getBuild_connected projectFolder frames term w connected)
    as [_ Ex].
  destruct (getBuild_open_connected projectFolder w connected) as [_ Eo].
  cbn zeta in Ex.
  rewrite Ex, getBuild_settle_exec, onEach_getBuild_exec, Eo, !emits_emits.
  reflexivity.
Qed.

Lemma getBuild_calls_in_arrival_order_witness :
  exec (getBuild (lit "/p") Opens
          [GetBuildReply.PROGRESS progressA; GetBuildReply.OUTPUT stdoutB;
           GetBuildReply.GET_BUILD_RESULT resultX] StreamEnd) connectedWorld =
  emits [StatusText
           (Localized "client.refreshingTasks" "{0} Gradle: Refreshing Tasks"
              [lit "$(sync~spin)"]);
         StatusShow; OpenGetBuild 0 (lit "/p");
         StatusText (Raw (lit "$(sync~spin) Gradle: A"));
         Log LvlInfo (Raw (lit "B"));
         StatusHide] connectedWorld.
Proof.
  exact (getBuild_calls_in_arrival_order (lit "/p")
           [GetBuildReply.PROGRESS progressA; GetBuildReply.OUTPUT stdoutB;
            GetBuildReply.GET_BUILD_RESULT resultX] StreamEnd
           connectedWorld eq_refl).
Defined.

Lemma getBuild_calls_quiet frames :
  bookkeeping (flat_map getBuild_calls frames) = [] /\
  forwardedOutputs (flat_map getBuild_calls frames) = [] /\
  forallb (fun e => negb (lifecycle e)) (flat_map getBuild_calls frames) = true.
Proof.
  induction frames as [|f frames (IH1 & IH2 & IH3)]; simpl.
  { split; [|split]; reflexivity. }
  unfold bookkeeping, forwardedOutputs in *.
  rewrite !observe_app, forallb_app, IH1, IH2, IH3, !app_nil_r, andb_true_r.
  destruct f as [p|o|c|r|]; simpl;
    unfold handleProgress_calls, handleOutput_calls;
    try destruct (truthy _); repeat split; reflexivity.
Qed.

(** X2: a [getBuild] call never calls the cancellation registry or a caller's
    output sink, whatever its frames (Cancelled frames included), however
    its stream terminates and whether or not a gRPC client was constructed;
    nor does it construct or close a gRPC client, show the restart prompt or
    fire the connected notification. *)
Theorem getBuild_never_does_bookkeeping
  (projectFolder : jsstring) (opening : Opening)
  (frames : list GetBuildReply.t) (term : Terminal) (w : World) :
  let w' := exec (getBuild projectFolder opening frames term) w in
  bookkeeping (effects w') = bookkeeping (effects w) /\
  forwardedOutputs (effects w') = forwardedOutputs (effects w) /\
  exists l, w' = emits l w /\ forallb (fun e => negb (lifecycle e)) l = true.
Proof.
  cbn zeta. destruct (getBuild_calls_quiet frames) as (Q1 & Q2 & Q3).
  destruct (grpcClient w) as [h|] eqn:E; [destruct opening as [|err]|].
  - destruct (getBuild_connected projectFolder frames term w E) as [_ Ex].
    destruct (getBuild_open_connected projectFolder w E) as [_ Eo].
    cbn zeta in Ex.
    rewrite Ex, getBuild_settle_exec, onEach_getBuild_exec, Eo, !emits_emits.
    cbn [effects emits]. unfold bookkeeping, forwardedOutputs in *.
    rewrite !observe_app, Q1, Q2.
    split; [|split].
    + destruct term; cbn; now rewrite !app_nil_r.
    + destruct term; cbn; now rewrite !app_nil_r.
    + eexists. split; [reflexivity|].
      rewrite !forallb_app, Q3. now destruct term.
  - unfold exec. rewrite (getBuild_throws projectFolder err frames term w E).
    cbn [snd effects emits]. unfold bookkeeping, forwardedOutputs.
    rewrite !observe_app. cbn. rewrite !app_nil_r.
    split; [reflexivity|]. split; [reflexivity|].
    eexists. split; reflexivity.
  - rewrite (getBuild_null projectFolder opening frames term w E).
    cbn [effects emits]. unfold bookkeeping, forwardedOutputs.
    rewrite !observe_app. cbn. rewrite !app_nil_r.
    split; [reflexivity|]. split; [reflexivity|].
    eexists. split; reflexivity.
Qed.

Lemma runTask_calls_observed frames :
  forwardedOutputs (flat_map runTask_calls frames) = outputsOf frames /\
  bookkeeping (flat_map runTask_calls frames) = cancelledOf frames /\
  forallb (fun e => negb (lifecycle e)) (flat_map runTask_calls frames) = true.
Proof.
  induction frames as [|f frames (IH1 & IH2 & IH3)]; simpl.
  { split; [|split]; reflexivity. }
  unfold bookkeeping, forwardedOutputs in *.
  rewrite !observe_app, forallb_app, IH1, IH2, IH3, andb_true_r.
  destruct f as [p|o|c|]; simpl; unfold handleProgress_calls;
    try destruct (truthy _); split; try split; reflexivity.
Qed.

(** X3: whenever a [runTask] call gets its stream opened (a gRPC client
    exists and the opening call returns), it resolves, whatever the frames
    and however the stream terminates, and makes exactly these calls, in this
    order: show, the opening of the stream with the request built from its
    arguments, the calls of each frame in arrival order, one log entry
    (completion at info level, or the stream error at error level), and
    hide. *)
Theorem runTask_resolves_and_calls_in_arrival_order
  (projectFolder : jsstring) (task : Task) (args : list jsstring)
  (javaDebugPort : option N) (frames : list RunTaskReply.t) (term : Terminal)
  (w : World) (h : Handle) (connected : grpcClient w = Some h) :
  runTask projectFolder task args javaDebugPort Opens frames term w =
  (Resolved tt,
   emits ([StatusShow;
           OpenRunTask h
             {| rtProjectDir := projectFolder;
                rtTask := script task;
                rtJavaDebug := javaDebug task;
                rtJavaDebugPort := javaDebugPort;
                rtArgsList := args |}] ++
          flat_map runTask_calls frames ++
          [match term with
           | StreamEnd =>
               Log LvlInfo
                 (Localized "client.completedTask" "Completed task {0}"
                    [script task])
           | StreamError err =>
               Log LvlError
                 (Localized "client.errorRunningTask" "Error running task: {0}"
                    [detailsOrMessage err])
           end;
           StatusHide]) w).
Proof.
  destruct (runTask_connected projectFolder task args javaDebugPort frames
              term w connected) as [Ev Ex].
  destruct (runTask_open_connected projectFolder task args javaDebugPort w
              connected) as [_ Eo].
  cbn zeta in Ev, Ex.
  rewrite (surjective_pairing (runTask _ _ _ _ _ _ _ _)).
  change (fst (runTask projectFolder task args javaDebugPort Opens frames term w))
    with (eval (runTask projectFolder task args javaDebugPort Opens frames term) w).
  change (snd (runTask projectFolder task args javaDebugPort Opens frames term w))
    with (exec (runTask projectFolder task args javaDebugPort Opens frames term) w).
  rewrite Ev, Ex, runTask_settle_exec, onEach_runTask_exec, Eo, !emits_emits.
  f_equal. now destruct term.
Qed.

Lemma runTask_resolves_and_calls_in_arrival_order_witness :
  runTask (lit "/p") taskT1 [] None Opens
    [RunTaskReply.OUTPUT stdoutB; RunTaskReply.CANCELLED cancelledT1]
    (StreamError unavailable) connectedWorld =
  (Resolved tt,
   emits [StatusShow;
          OpenRunTask 0
            {| rtProjectDir := lit "/p";
               rtTask := lit "t1";
               rtJavaDebug := false;
               rtJavaDebugPort := None;
               rtArgsList := [] |};
          OnOutput stdoutB;
          Log LvlInfo
            (Localized "client.runTaskCancelled" "Task cancelled: {0}"
               [lit "stopped"]);
          HandleCancelledTask (lit "t1") (lit "/p");
          Log LvlError
            (Localized "client.errorRunningTask" "Error running task: {0}"
               [lit "failed to connect to all addresses"]);
          StatusHide] connectedWorld).
Proof.
  exact (runTask_resolves_and_calls_in_arrival_order (lit "/p") taskT1 []
           None [RunTaskReply.OUTPUT stdoutB; RunTaskReply.CANCELLED cancelledT1]
           (StreamError unavailable) connectedWorld eq_refl).
Defined.

(** X4: over a whole [runTask] call whose stream is opened, the caller's
    [onOutput] receives every Output frame exactly once and in arrival order,
    and the cancellation registry is called exactly once per Cancelled frame,
    in arrival order, with that frame's task and project dir; the call
    neither constructs nor closes a gRPC client. *)
Theorem runTask_forwards_each_frame_once
  (projectFolder : jsstring) (task : Task) (args : list jsstring)
  (javaDebugPort : option N) (frames : list RunTaskReply.t) (term : Terminal)
  (w : World) (h : Handle) (connected : grpcClient w = Some h) :
  let w' :=
    exec (runTask projectFolder task args javaDebugPort Opens frames term) w in
  forwardedOutputs (effects w') = forwardedOutputs (effects w) ++ outputsOf frames /\
  bookkeeping (effects w') = bookkeeping (effects w) ++ cancelledOf frames /\
  connectAttempts (effects w') = connectAttempts (effects w) /\
  closes (effects w') = closes (effects w).
Proof.
  cbn zeta.
  destruct (runTask_connected projectFolder task args javaDebugPort frames
              term w connected) as [_ Ex].
  destruct (runTask_open_connected projectFolder task args javaDebugPort w
              connected) as [_ Eo].
  cbn zeta in Ex.
  rewrite Ex, runTask_settle_exec, onEach_runTask_exec, Eo, !emits_emits.
  cbn [effects emits].
  destruct (runTask_calls_observed frames) as (Q1 & Q2 & Q3).
  assert (Q4 : connectAttempts (flat_map runTask_calls frames) = [] /\
               closes (flat_map runTask_calls frames) = []).
  { clear -Q3. induction (flat_map runTask_calls frames) as [|e l IH];
      [split; reflexivity|].
    simpl in Q3. apply andb_true_iff in Q3 as [He Hl].
    destruct (IH Hl) as [I1 I2]. unfold connectAttempts, closes in *.
    change (e :: l) with ([e] ++ l). rewrite !observe_app, I1, I2.
    destruct e; try discriminate He; split; reflexivity. }
  destruct Q4 as [Q4 Q5].
  unfold forwardedOutputs, bookkeeping, connectAttempts, closes in *.
  rewrite !observe_app, Q1, Q2, Q4, Q5. cbn. rewrite !app_nil_r.
  repeat split; reflexivity.
Qed.

Lemma runTask_forwards_each_frame_once_witness :
  forwardedOutputs
    (effects
       (exec (runTask (lit "/p") taskT1 [] None Opens
                [RunTaskReply.OUTPUT stdoutB; RunTaskReply.PROGRESS progressA;
                 RunTaskReply.OUTPUT stderrOutput] StreamEnd) connectedWorld))
  = [stdoutB; stderrOutput].
Proof.
  exact (proj1 (runTask_forwards_each_frame_once (lit "/p") taskT1 [] None
                  [RunTaskReply.OUTPUT stdoutB; RunTaskReply.PROGRESS progressA;
                   RunTaskReply.OUTPUT stderrOutput] StreamEnd
                  connectedWorld eq_refl)).
Defined.

(** X17: when the call that opens the stream throws on a client that holds
    a gRPC client, the exception leaves [getBuild] and [runTask] before their
    [try] block: the call rejects with the exception thrown, no stream is
    opened, no frame is handled, nothing is logged, and the status bar item,
    shown just before, is not hidden. *)
Theorem opening_throw_rejects_and_leaves_indicator_shown
  (projectFolder : jsstring) (task : Task) (args : list jsstring)
  (javaDebugPort : option N) (thrown : JsError)
  (gframes : list GetBuildReply.t) (rframes : list RunTaskReply.t)
  (term : Terminal) (w : World) (h : Handle)
  (connected : grpcClient w = Some h) :
  getBuild projectFolder (OpenThrows thrown) gframes term w =
    (Rejected thrown,
     emits [StatusText
              (Localized "client.refreshingTasks"
                 "{0} Gradle: Refreshing Tasks" [lit "$(sync~spin)"]);
            StatusShow] w) /\
  runTask projectFolder task args javaDebugPort (OpenThrows thrown) rframes
    term w =
    (Rejected thrown, emits [StatusShow] w) /\
  (forall before,
     statusShown before
       (effects (exec (getBuild projectFolder (OpenThrows thrown) gframes term)
                   w)) = true /\
     statusShown before
       (effects (exec (runTask projectFolder task args javaDebugPort
                         (OpenThrows thrown) rframes term) w)) = true).
Proof.
  assert (shown : forall l tail before,
            statusShown true tail = true ->
            statusShown before (l ++ StatusShow :: tail) = true).
  { induction l as [|x l IH]; intros tail before H; [exact H|].
    destruct x; simpl; now apply IH. }
  rewrite (getBuild_throws projectFolder thrown gframes term w connected).
  rewrite (runTask_throws projectFolder task args javaDebugPort thrown
             rframes term w connected).
  split; [reflexivity|]. split; [reflexivity|].
  intros before. unfold exec.
  rewrite (getBuild_throws projectFolder thrown gframes term w connected).
  rewrite (runTask_throws projectFolder task args javaDebugPort thrown
             rframes term w connected).
  cbn [snd effects emits]. split.
  - change [StatusText
              (Localized "client.refreshingTasks"
                 "{0} Gradle: Refreshing Tasks" [lit "$(sync~spin)"]);
            StatusShow]
      with ([StatusText
               (Localized "client.refreshingTasks"
                  "{0} Gradle: Refreshing Tasks" [lit "$(sync~spin)"])] ++
            StatusShow :: []).
    rewrite app_assoc. now apply shown.
  - now apply shown.
Qed.

Lemma opening_throw_rejects_and_leaves_indicator_shown_witness :
  runTask (lit "/p") taskT1 [] None (OpenThrows unavailable)
    [RunTaskReply.OUTPUT stdoutB] StreamEnd
    (exec dispose connectedWorld) =
  (Rejected unavailable, emits [StatusShow] (exec dispose connectedWorld)).
Proof.
  exact (proj1 (proj2 (opening_throw_rejects_and_leaves_indicator_shown
                         (lit "/p") taskT1 [] None unavailable []
                         [RunTaskReply.OUTPUT stdoutB] StreamEnd
                         (exec dispose connectedWorld) (h := 0) eq_refl))).
Defined.

(** ** Unary calls: failures and the cancel-all operations *)

(** X5: when the server answers a cancel request with an error, the operation
    (on a constructed client) sends its one request, logs the error at error
    level -- its [details] when non-empty, else its [message] -- and resolves;
    in particular a failed [cancelRunTask] does not call the cancellation
    registry. *)
Theorem failed_cancel_is_logged_and_resolves
  (projectFolder task : jsstring) (err : JsError) (w : World) (h : Handle)
  (connected : grpcClient w = Some h) :
  cancelRunTask projectFolder task (UnaryError err) w =
    (Resolved tt,
     emits [CallCancelRunTask h projectFolder task;
            Log LvlError
              (Localized "client.errorCancellingRunningTask"
                 "Error cancelling running task: {0}"
                 [detailsOrMessage err])] w) /\
  cancelRunTasks (UnaryError err) w =
    (Resolved tt,
     emits [CallCancelRunTasks h;
            Log LvlError
              (Localized "client.errorCancellingRunningTasks"
                 "Error cancelling running tasks: {0}"
                 [detailsOrMessage err])] w) /\
  cancelGetBuilds (UnaryError err) w =
    (Resolved tt,
     emits [CallCancelGetBuilds h;
            Log LvlError
              (Localized "client.errorCancellingGetBuilds"
                 "Error cancelling get builds: {0}"
                 [detailsOrMessage err])] w) /\
  bookkeeping
    (effects (exec (cancelRunTask projectFolder task (UnaryError err)) w)) =
  bookkeeping (effects w).
Proof.
  destruct w as [dl g tries maxTries port next pending called].
  cbn in connected. subst g.
  unfold cancelRunTask, cancelRunTasks, cancelGetBuilds, exec, bind,
    getGrpcClient, emits, ret, logger_error, emit. cbn [fst snd effects
    connectDeadline grpcClient connectTries maxConnectTries serverPort
    nextHandle pendingReady].
  rewrite <- !app_assoc. cbn [app].
  split; [reflexivity|]. split; [reflexivity|]. split; [reflexivity|].
  unfold bookkeeping. rewrite observe_app. cbn. now rewrite app_nil_r.
Qed.

Lemma failed_cancel_is_logged_and_resolves_witness :
  cancelRunTask (lit "/p") (lit "t1") (UnaryError unavailable) connectedWorld =
  (Resolved tt,
   emits [CallCancelRunTask 0 (lit "/p") (lit "t1");
          Log LvlError
            (Localized "client.errorCancellingRunningTask"
               "Error cancelling running task: {0}"
               [lit "failed to connect to all addresses"])] connectedWorld).
Proof.
  exact (proj1 (failed_cancel_is_logged_and_resolves (lit "/p") (lit "t1")
                  unavailable connectedWorld eq_refl)).
Defined.

(** X6: [cancelRunTasks] and [cancelGetBuilds] never call the cancellation
    registry and never reject: whatever the server answers, and whether or
    not a gRPC client was constructed, each resolves after writing exactly
    one log entry and leaves the status bar item alone. *)
Theorem cancel_all_leaves_registry_alone
  (a2 : Unary CancelRunTasksReply.t) (a3 : Unary CancelGetBuildsReply.t)
  (w : World) :
  let w2 := exec (cancelRunTasks a2) w in
  let w3 := exec (cancelGetBuilds a3) w in
  eval (cancelRunTasks a2) w = Resolved tt /\
  eval (cancelGetBuilds a3) w = Resolved tt /\
  bookkeeping (effects w2) = bookkeeping (effects w) /\
  bookkeeping (effects w3) = bookkeeping (effects w) /\
  List.length (logged (effects w2)) = S (List.length (logged (effects w))) /\
  List.length (logged (effects w3)) = S (List.length (logged (effects w))) /\
  (forall before,
     statusShown before (effects w2) = statusShown before (effects w) /\
     statusShown before (effects w3) = statusShown before (effects w)).
Proof.
  assert (shown : forall l l' before,
            statusShown before (l ++ l') =
            statusShown (statusShown before l) l').
  { induction l as [|e l IH]; intros l' before; [reflexivity|].
    destruct e; simpl; apply IH. }
  assert (E2 : exists l, effects (exec (cancelRunTasks a2) w) = effects w ++ l /\
             bookkeeping l = [] /\ List.length (logged l) = 1 /\
             forall b, statusShown b l = b).
  { destruct w as [dl [g|] tries maxTries port next pending called];
      destruct a2; cbn; rewrite <- ?app_assoc; eexists;
      (split; [reflexivity|]); repeat split; reflexivity. }
  assert (E3 : exists l, effects (exec (cancelGetBuilds a3) w) = effects w ++ l /\
             bookkeeping l = [] /\ List.length (logged l) = 1 /\
             forall b, statusShown b l = b).
  { destruct w as [dl [g|] tries maxTries port next pending called];
      destruct a3; cbn; rewrite <- ?app_assoc; eexists;
      (split; [reflexivity|]); repeat split; reflexivity. }
  cbn zeta.
  destruct E2 as (l2 & -> & B2 & L2 & S2), E3 as (l3 & -> & B3 & L3 & S3).
  unfold bookkeeping, logged in *.
  rewrite !observe_app, !length_app, B2, B3, L2, L3, !app_nil_r.
  split; [reflexivity|]. split; [reflexivity|].
  split; [reflexivity|]. split; [reflexivity|].
  split; [lia|]. split; [lia|].
  intros before. now rewrite !shown, S2, S3.
Qed.

(** ** Connecting: the constructor that throws, and the attempt that succeeds *)

Lemma handleServerReady_throws (err : JsError) (w : World) :
  exec (handleServerReady (CtorThrows err)) w =
  emits [StatusText (Raw (lit "$(sync~spin) Gradle: Connecting"));
         StatusShow;
         Log LvlDebug
           (Localized "client.connecting"
              "Gradle client connecting to server" []);
         NewGrpcClient (serverPort w);
         Log LvlError
           (Localized "client.grpcClientConstructionError"
              "Unable to construct the gRPC client: {0}" [message err]);
         StatusHide] w.
Proof.
  unfold handleServerReady, logger_debug.
  rewrite !exec_bind, connectToServer_throws, !exec_emit, !emits_emits.
  reflexivity.
Qed.

(** X7: when the gRPC constructor throws on a server-ready episode, the error is
    logged with its message and the status bar item is hidden; no readiness
    wait is registered, so on an idle client nothing follows: no retry, no
    restart prompt, and the counter and the [grpcClient] field are as
    before. *)
Theorem throwing_constructor_is_not_retried
  (err : JsError) (w : World) (fuel : nat) (env : nat -> Readiness)
  (idle : pendingReady w = []) :
  let w' := eventLoop fuel env (exec (handleServerReady (CtorThrows err)) w) in
  w' = emits [StatusText (Raw (lit "$(sync~spin) Gradle: Connecting"));
              StatusShow;
              Log LvlDebug
                (Localized "client.connecting"
                   "Gradle client connecting to server" []);
              NewGrpcClient (serverPort w);
              Log LvlError
                (Localized "client.grpcClientConstructionError"
                   "Unable to construct the gRPC client: {0}" [message err]);
              StatusHide] w /\
  promptsShown w' = promptsShown w /\
  attemptsMade w' = attemptsMade w + 1 /\
  (forall before, statusShown before (effects w') = false).
Proof.
  cbn zeta. rewrite handleServerReady_throws.
  rewrite eventLoop_quiet by exact idle.
  split; [reflexivity|].
  match goal with |- context [promptsShown ?w1] =>
    destruct (counts_app w1 (effects w) _ eq_refl) as (Ea & Er & _)
  end.
  rewrite Ea, Er. cbn. unfold promptsShown, attemptsMade.
  split; [lia|]. split; [lia|].
  intros before.
  change (effects w ++ _) with
    (effects w ++
     [StatusText (Raw (lit "$(sync~spin) Gradle: Connecting")); StatusShow;
      Log LvlDebug
        (Localized "client.connecting" "Gradle client connecting to server" []);
      NewGrpcClient (serverPort w);
      Log LvlError
        (Localized "client.grpcClientConstructionError"
           "Unable to construct the gRPC client: {0}" [message err])] ++
     [StatusHide]).
  rewrite app_assoc. apply statusShown_hidden.
Qed.

Lemma throwing_constructor_is_not_retried_witness :
  promptsShown
    (eventLoop 10 alwaysDeadline
       (exec (handleServerReady (CtorThrows constructorError))
          (constructor 4000))) = 0.
Proof.
  exact (proj1 (proj2 (throwing_constructor_is_not_retried constructorError
                         (constructor 4000) 10 alwaysDeadline eq_refl))).
Defined.

(** X8: when a retry's constructor call throws, the retry has already used up a
    try and closed the failed client, which stays in the [grpcClient] field;
    the error is logged and the status bar item hidden, but no readiness
    wait is registered: the chain of retries ends there, without the restart
    prompt. *)
Theorem retry_with_throwing_constructor_stops_silently
  (e err : JsError) (w : World) (h g : Handle)
  (waiting : pendingReady w = [h]) (held : grpcClient w = Some g)
  (triesLeft : connectTries w < maxConnectTries w) :
  let w' :=
    exec (deliverReady {| readyError := Some e; retryCtor := CtorThrows err |})
      w in
  w' = {| connectDeadline := connectDeadline w;
          grpcClient := Some g;
          connectTries := connectTries w + 1;
          maxConnectTries := maxConnectTries w;
          serverPort := serverPort w;
          nextHandle := nextHandle w;
          pendingReady := [];
          effects := effects w ++
            [Close g; NewGrpcClient (serverPort w);
             Log LvlError
               (Localized "client.grpcClientConstructionError"
                  "Unable to construct the gRPC client: {0}" [message err]);
             StatusHide] |} /\
  promptsShown w' = promptsShown w /\
  (forall fuel env, eventLoop fuel env w' = w').
Proof.
  cbn zeta.
  assert (E : exec (deliverReady
                      {| readyError := Some e; retryCtor := CtorThrows err |}) w
              = {| connectDeadline := connectDeadline w;
                   grpcClient := Some g;
                   connectTries := connectTries w + 1;
                   maxConnectTries := maxConnectTries w;
                   serverPort := serverPort w;
                   nextHandle := nextHandle w;
                   pendingReady := [];
                   effects := effects w ++
                     [Close g; NewGrpcClient (serverPort w);
                      Log LvlError
                        (Localized "client.grpcClientConstructionError"
                           "Unable to construct the gRPC client: {0}"
                           [message err]);
                      StatusHide] |}).
  { rewrite deliverReady_error, handleConnectError_retry_exec by exact triesLeft.
    rewrite connectToServer_throws.
    destruct w as [dl gc tries maxTries port next pending called].
    cbn in waiting, held. subst gc pending.
    unfold closeGrpcClient, exec, bind, getGrpcClient, emits. cbn.
    now rewrite <- !app_assoc. }
  rewrite E. split; [reflexivity|]. split.
  - match goal with |- promptsShown ?w1 = _ =>
      destruct (counts_app w1 (effects w) _ eq_refl) as (_ & Er & _)
    end.
    rewrite Er. cbn. unfold promptsShown. lia.
  - intros fuel env. now apply eventLoop_quiet.
Qed.

Lemma retry_with_throwing_constructor_stops_silently_witness :
  promptsShown
    (exec (deliverReady {| readyError := Some deadlineExceeded;
                           retryCtor := CtorThrows constructorError |})
       (exec (handleServerReady Constructed) (constructor 4000))) = 0.
Proof.
  refine (proj1 (proj2 (retry_with_throwing_constructor_stops_silently
                          deadlineExceeded constructorError
                          (exec (handleServerReady Constructed)
                             (constructor 4000))
                          (h := 0) (g := 0) eq_refl eq_refl _))).
  cbn. lia.
Defined.

Lemma fires_app (w : World) (l l' : list Effect) :
  effects w = l ++ l' ->
  firesMade w =
  List.length (connectedFired l) + List.length (connectedFired l').
Proof.
  unfold firesMade, connectedFired. intros ->.
  now rewrite observe_app, length_app.
Qed.

Lemma deliverReady_success (ctor : CtorOutcome) (w : World) :
  exec (deliverReady {| readyError := None; retryCtor := ctor |}) w =
  {| connectDeadline := connectDeadline w;
     grpcClient := grpcClient w;
     connectTries := connectTries w;
     maxConnectTries := maxConnectTries w;
     serverPort := serverPort w;
     nextHandle := nextHandle w;
     pendingReady := tl (pendingReady w);
     effects := effects w ++
       [Log LvlInfo
          (Localized "client.connected" "Gradle client connected to server" []);
        FireOnConnect] |}.
Proof.
  unfold deliverReady, handleClientReady, logger_info, exec, bind. cbn.
  now rewrite <- app_assoc.
Qed.

Lemma succeedsAfter_shift k env :
  succeedsAfter (S k) env -> succeedsAfter k (fun i => env (S i)).
Proof.
  intros [Hf Hs]. split; [|exact Hs]. intros i Hi. apply Hf. lia.
Qed.

Lemma succeedsAfter_head k env :
  succeedsAfter (S k) env ->
  exists e, env 0 = {| readyError := Some e; retryCtor := Constructed |}.
Proof.
  intros [Hf _]. destruct (Hf 0) as [He Hc]; [lia|].
  destruct (env 0) as [re rc]. cbn in He, Hc. subst rc.
  destruct re as [e|]; [now exists e|contradiction].
Qed.

(** With one callback pending and at least [k] tries left, [k] failures
    followed by a success make [k] more connect attempts and then fire the
    connected notification. *)
Lemma eventLoop_succeeds (k : nat) : forall fuel env w h g,
  succeedsAfter k env ->
  pendingReady w = [h] ->
  grpcClient w = Some g ->
  connectTries w + k <= maxConnectTries w ->
  k < fuel ->
  let w' := eventLoop fuel env w in
  pendingReady w' = [] /\
  attemptsMade w' = attemptsMade w + k /\
  promptsShown w' = promptsShown w /\
  closesMade w' = closesMade w + k /\
  firesMade w' = firesMade w + 1 /\
  connectTries w' = connectTries w + k /\
  exists l, effects w' = l ++ [FireOnConnect].
Proof.
  induction k as [|k IH]; intros fuel env w h g Hs Hp Hg Ht Hfuel;
    (destruct fuel as [|fuel]; [lia|]);
    cbn zeta; simpl eventLoop; rewrite Hp.
  - destruct Hs as [_ Hs]. destruct (env 0) as [re rc]. cbn in Hs. subst re.
    rewrite deliverReady_success, Hp. cbn [tl].
    rewrite eventLoop_quiet by reflexivity.
    match goal with |- context [attemptsMade ?w1] =>
      destruct (counts_app w1 (effects w) _ eq_refl) as (Ea & Er & Ec);
      pose proof (fires_app w1 (effects w) _ eq_refl) as Ef
    end.
    rewrite Ea, Er, Ec, Ef. cbn.
    unfold attemptsMade, promptsShown, closesMade, firesMade.
    repeat split; try lia.
    exists (effects w ++
            [Log LvlInfo
               (Localized "client.connected"
                  "Gradle client connected to server" [])]).
    now rewrite <- app_assoc.
  - destruct (succeedsAfter_head Hs) as [e He]. rewrite He.
    rewrite (deliverReady_retry e w Hp Hg) by lia.
    match goal with |- context [eventLoop fuel ?env' ?w1] =>
      destruct (IH fuel env' w1 (nextHandle w) (nextHandle w)
                  (succeedsAfter_shift Hs) eq_refl eq_refl)
        as (I1 & I2 & I3 & I4 & I5 & I6 & I7);
      [cbn; lia | lia |];
      destruct (counts_app w1 (effects w) _ eq_refl) as (Ea & Er & Ec);
      pose proof (fires_app w1 (effects w) _ eq_refl) as Ef
    end.
    rewrite I2, I3, I4, I5, I6, Ea, Er, Ec, Ef. cbn.
    unfold attemptsMade, promptsShown, closesMade, firesMade.
    repeat split; try assumption; try lia.
Qed.

(** The calls of the loop of [eventLoop_succeeds], one by one. *)
Lemma eventLoop_succeeds_calls (k : nat) : forall fuel env w h,
  succeedsAfter k env ->
  pendingReady w = [h] ->
  grpcClient w = Some h ->
  nextHandle w = S h ->
  connectTries w + k <= maxConnectTries w ->
  k < fuel ->
  effects (eventLoop fuel env w) =
    effects w ++
    flat_map (retryCalls (serverPort w) (connectDeadline w)) (seq h k) ++
    [Log LvlInfo
       (Localized "client.connected" "Gradle client connected to server" []);
     FireOnConnect] /\
  grpcClient (eventLoop fuel env w) = Some (h + k).
Proof.
  induction k as [|k IH]; intros fuel env w h Hs Hp Hg Hn Ht Hfuel;
    (destruct fuel as [|fuel]; [lia|]);
    simpl eventLoop; rewrite Hp.
  - destruct Hs as [_ Hs]. destruct (env 0) as [re rc]. cbn in Hs. subst re.
    rewrite deliverReady_success, Hp. cbn [tl].
    rewrite eventLoop_quiet by reflexivity.
    cbn [effects grpcClient seq flat_map app]. rewrite Hg, Nat.add_0_r.
    split; reflexivity.
  - destruct (succeedsAfter_head Hs) as [e He]. rewrite He.
    rewrite (deliverReady_retry e w Hp Hg) by lia.
    match goal with |- context [eventLoop fuel ?env' ?w1] =>
      destruct (IH fuel env' w1 (nextHandle w) (succeedsAfter_shift Hs)
                  eq_refl eq_refl eq_refl) as (Ee & Eg);
      [cbn; lia | lia |]
    end.
    rewrite Ee, Eg. cbn [effects serverPort connectDeadline].
    rewrite Hn. cbn [seq flat_map retryCalls app].
    split; [now rewrite <- app_assoc|]. f_equal. lia.
Qed.

(** X9: on a client that has not retried yet, when the first [k] readiness
    waits fail and the next one succeeds, with [k] at most [maxConnectTries]:
    the first attempt is followed by [k] retries, each first closing the
    client that has just failed and then constructing and awaiting the next
    one; the connected notification is then fired exactly once, as the last
    call; the restart prompt is not shown; the counter stays at [k] and the
    field holds the client constructed last. *)
Theorem connect_succeeds_after_retries
  (k : nat) (w : World) (env : nat -> Readiness) (fuel : nat)
  (fresh : connectTries w = 0) (idle : pendingReady w = [])
  (outcome : succeedsAfter k env) (within : k <= maxConnectTries w)
  (enough : k < fuel) :
  let w' := eventLoop fuel env (exec (handleServerReady Constructed) w) in
  attemptsMade w' = attemptsMade w + (k + 1) /\
  closesMade w' = closesMade w + k /\
  firesMade w' = firesMade w + 1 /\
  promptsShown w' = promptsShown w /\
  connectTries w' = k /\
  pendingReady w' = [] /\
  (exists l, effects w' = l ++ [FireOnConnect]) /\
  effects w' =
    effects w ++
    connectingCalls (serverPort w) (connectDeadline w) (nextHandle w) ++
    flat_map (retryCalls (serverPort w) (connectDeadline w))
      (seq (nextHandle w) k) ++
    [Log LvlInfo
       (Localized "client.connected" "Gradle client connected to server" []);
     FireOnConnect] /\
  closes (effects w') = closes (effects w) ++ seq (nextHandle w) k /\
  grpcClient w' = Some (nextHandle w + k).
Proof.
  rewrite handleServerReady_constructed, idle. cbn [app].
  match goal with |- context [eventLoop fuel env ?w1] =>
    destruct (@eventLoop_succeeds k fuel env w1 (nextHandle w) (nextHandle w)
                outcome eq_refl eq_refl)
      as (I1 & I2 & I3 & I4 & I5 & I6 & I7);
    [cbn; lia | exact enough |];
    destruct (@eventLoop_succeeds_calls k fuel env w1 (nextHandle w)
                outcome eq_refl eq_refl eq_refl) as (Ee & Eg);
    [cbn; lia | exact enough |];
    destruct (counts_app w1 (effects w) _ eq_refl) as (Ea & Er & Ec);
    pose proof (fires_app w1 (effects w) _ eq_refl) as Ef
  end.
  cbn zeta. rewrite I2, I3, I4, I5, I6, Ea, Er, Ec, Ef.
  cbn [List.length connectAttempts restartPrompts closes connectedFired
       observe flat_map app connectTries].
  unfold attemptsMade, promptsShown, closesMade, firesMade.
  split; [lia|]. split; [lia|]. split; [lia|]. split; [lia|].
  split; [lia|]. split; [exact I1|]. split; [exact I7|].
  cbn [effects serverPort connectDeadline] in Ee.
  split; [|split; [|exact Eg]].
  - unfold connectingCalls. rewrite Ee. now rewrite <- app_assoc.
  - rewrite Ee. unfold closes. rewrite !observe_app.
    change (observe (fun e0 => match e0 with Close h0 => Some h0 | _ => None end))
      with closes.
    rewrite closes_retryCalls. cbn. now rewrite !app_nil_r.
Qed.

Lemma connect_succeeds_after_retries_witness :
  let w' := eventLoop 3 failTwiceThenReady
              (exec (handleServerReady Constructed) (constructor 4000)) in
  attemptsMade w' = 3 /\ closesMade w' = 2 /\ firesMade w' = 1.
Proof.
  destruct (@connect_succeeds_after_retries 2 (constructor 4000)
              failTwiceThenReady 3 eq_refl eq_refl)
    as (Ha & Hc & Hf & _).
  - split; [|reflexivity]. intros i Hi.
    destruct i as [|[|i]]; [| |lia]; split; (discriminate || reflexivity).
  - cbn. lia.
  - lia.
  - split; [exact Ha|]. split; [exact Hc|exact Hf].
Defined.

(** ** The event loop always comes to rest *)

Lemma deliverReady_work (r : Readiness) (w : World) :
  pendingReady w <> [] ->
  pendingWork (exec (deliverReady r) w) < pendingWork w.
Proof.
  intros Hp. destruct (pendingReady w) as [|h rest] eqn:E; [contradiction|].
  destruct r as [[e|] ctor].
  - rewrite deliverReady_error.
    destruct (Nat.ltb_spec (connectTries w) (maxConnectTries w)) as [Hlt|Hge].
    + rewrite handleConnectError_retry_exec by exact Hlt.
      destruct (onlyEmits_closeGrpcClient
                  (exec incrConnectTries (exec popPendingReady w))) as [l ->].
      destruct ctor as [|err];
        [rewrite connectToServer_constructed|rewrite connectToServer_throws];
        unfold pendingWork; cbn; rewrite E; cbn;
        rewrite ?length_app; cbn; lia.
    + rewrite handleConnectError_exhausted by exact Hge.
      unfold pendingWork. cbn. rewrite E. cbn. lia.
  - rewrite deliverReady_success. unfold pendingWork. cbn. rewrite E. cbn. lia.
Qed.

(** X10: whatever the readiness waits report and whether or not constructor calls
    throw, the loop runs out of pending callbacks after at most as many
    deliveries as there are callbacks pending plus tries left: a failed
    connect attempt ends in another attempt or in no attempt at all, never in
    an endless chain. *)
Theorem eventLoop_comes_to_rest
  (fuel : nat) (env : nat -> Readiness) (w : World)
  (enough : pendingWork w <= fuel) :
  pendingReady (eventLoop fuel env w) = [] /\
  forall fuel' env', eventLoop fuel' env' (eventLoop fuel env w)
                     = eventLoop fuel env w.
Proof.
  assert (rest : pendingReady (eventLoop fuel env w) = []).
  { revert env w enough. induction fuel as [|fuel IH]; intros env w enough.
    - simpl. unfold pendingWork in enough.
      destruct (pendingReady w); [reflexivity|simpl in enough; lia].
    - simpl. destruct (pendingReady w) as [|h rest] eqn:E; [exact E|].
      apply IH.
      assert (Hne : pendingReady w <> []) by (rewrite E; discriminate).
      pose proof (@deliverReady_work (env 0) w Hne). lia. }
  split; [exact rest|]. intros fuel' env'. now apply eventLoop_quiet.
Qed.

Lemma eventLoop_comes_to_rest_witness :
  pendingReady
    (eventLoop 6 failTwiceThenReady
       (exec (handleServerReady Constructed) (constructor 4000))) = [].
Proof.
  refine (proj1 (@eventLoop_comes_to_rest 6 failTwiceThenReady
                   (exec (handleServerReady Constructed) (constructor 4000))
                   _)).
  vm_compute. repeat constructor.
Defined.

(** ** Requests leave the connection alone *)

Lemma emitsOnly_ret P {A} (a : A) : emitsOnly P (ret a).
Proof. intros w. exists []. now rewrite emits_nil. Qed.

Lemma emitsOnly_emit (P : Effect -> bool) (e : Effect) :
  P e = true -> emitsOnly P (emit e).
Proof. intros H w. exists [e]. simpl. now rewrite H. Qed.

Lemma emitsOnly_getGrpcClient P : emitsOnly P getGrpcClient.
Proof. intros w. exists []. now rewrite emits_nil. Qed.

Lemma emitsOnly_bind P {A B} (c : M A) (k : A -> M B) :
  emitsOnly P c -> (forall a, emitsOnly P (k a)) -> emitsOnly P (bind c k).
Proof.
  intros Hc Hk w. rewrite exec_bind.
  destruct (Hc w) as (l1 & E1 & P1). rewrite E1.
  destruct (Hk (eval c w) (emits l1 w)) as (l2 & E2 & P2). rewrite E2.
  exists (l1 ++ l2). split; [apply emits_emits|].
  now rewrite forallb_app, P1, P2.
Qed.

Ltac emits_only :=
  repeat first
    [ apply emitsOnly_ret
    | apply emitsOnly_emit; reflexivity
    | apply emitsOnly_getGrpcClient
    | apply emitsOnly_bind; [|intros ?]
    | match goal with
      | |- emitsOnly _ (match ?x with _ => _ end) => destruct x
      end
    | progress unfold logger_debug, logger_info, logger_error ].

Lemma perform_request (a : Action) :
  isRequest a = true ->
  emitsOnly (fun e => negb (lifecycle e)) (fun w => (tt, perform a w)).
Proof.
  assert (lift : forall A (c : M A),
            emitsOnly (fun e => negb (lifecycle e)) c ->
            emitsOnly (fun e => negb (lifecycle e)) (fun w => (tt, exec c w))).
  { intros A c H w. exact (H w). }
  destruct a; intros H; try discriminate H; simpl perform; apply lift.
  - unfold getBuild_open. emits_only.
  - unfold getBuild_onData, handleProgress, handleOutput,
      handleGetBuildCancelled. emits_only.
  - unfold getBuild_settle. emits_only.
  - unfold runTask_open. emits_only.
  - unfold runTask_onData, handleProgress, handleRunTaskCancelled. emits_only.
  - unfold runTask_settle. emits_only.
  - unfold cancelRunTask. emits_only.
  - unfold cancelRunTasks. emits_only.
  - unfold cancelGetBuilds. emits_only.
Qed.

Lemma quiet_counts (l : list Effect) :
  forallb (fun e => negb (lifecycle e)) l = true ->
  connectAttempts l = [] /\ closes l = [] /\ restartPrompts l = [] /\
  connectedFired l = [].
Proof.
  induction l as [|e l IH]; intros H; [repeat split; reflexivity|].
  simpl in H. apply andb_true_iff in H as [He Hl].
  destruct (IH Hl) as (I1 & I2 & I3 & I4).
  unfold connectAttempts, closes, restartPrompts, connectedFired in *.
  change (e :: l) with ([e] ++ l). rewrite !observe_app, I1, I2, I3, I4.
  destruct e; try discriminate He; repeat split; reflexivity.
Qed.

(** X11: however many streaming and cancel steps are taken, in whatever order and
    whatever the server sends, the connection is left alone: the
    [grpcClient] field, the retry counter and the pending readiness
    callbacks are unchanged, no gRPC client is constructed or closed, the
    restart prompt is not shown and the connected notification is not
    fired. *)
Theorem requests_leave_connection_alone
  (acts : list Action) (w : World)
  (requests : forallb isRequest acts = true) :
  exists l,
    lifetime acts w = emits l w /\
    forallb (fun e => negb (lifecycle e)) l = true /\
    attemptsMade (lifetime acts w) = attemptsMade w /\
    closesMade (lifetime acts w) = closesMade w /\
    promptsShown (lifetime acts w) = promptsShown w /\
    firesMade (lifetime acts w) = firesMade w.
Proof.
  assert (step : exists l, lifetime acts w = emits l w /\
                 forallb (fun e => negb (lifecycle e)) l = true).
  { revert w. unfold lifetime.
    induction acts as [|a acts IH]; intros w; simpl.
    - exists []. now rewrite emits_nil.
    - simpl in requests. apply andb_true_iff in requests as [Ha Hr].
      destruct (perform_request a Ha w) as (l1 & E1 & P1).
      unfold exec in E1. simpl in E1. rewrite E1.
      destruct (IH Hr (emits l1 w)) as (l2 & E2 & P2). rewrite E2.
      exists (l1 ++ l2). split; [apply emits_emits|].
      now rewrite forallb_app, P1, P2. }
  destruct step as (l & E & P). exists l. rewrite E.
  split; [reflexivity|]. split; [exact P|].
  destruct (quiet_counts l P) as (Q1 & Q2 & Q3 & Q4).
  unfold attemptsMade, closesMade, promptsShown, firesMade,
    connectAttempts, closes, restartPrompts, connectedFired in *.
  cbn [effects emits]. rewrite !observe_app, Q1, Q2, Q3, Q4, !app_nil_r.
  repeat split; reflexivity.
Qed.

Lemma requests_leave_connection_alone_witness :
  exists l,
    lifetime cancelEpisode connectedWorld = emits l connectedWorld /\
    forallb (fun e => negb (lifecycle e)) l = true /\
    attemptsMade (lifetime cancelEpisode connectedWorld)
      = attemptsMade connectedWorld /\
    closesMade (lifetime cancelEpisode connectedWorld)
      = closesMade connectedWorld /\
    promptsShown (lifetime cancelEpisode connectedWorld)
      = promptsShown connectedWorld /\
    firesMade (lifetime cancelEpisode connectedWorld)
      = firesMade connectedWorld.
Proof.
  exact (requests_leave_connection_alone cancelEpisode connectedWorld eq_refl).
Defined.

(** ** Accounting for connect attempts *)

Lemma attemptsMade_emits (l : list Effect) (w : World) :
  attemptsMade (emits l w) = attemptsMade w + List.length (connectAttempts l).
Proof.
  unfold attemptsMade, connectAttempts. cbn [effects emits].
  now rewrite observe_app, length_app.
Qed.

Lemma closeGrpcClient_exec (w : World) :
  exec closeGrpcClient w =
  emits (match grpcClient w with Some g => [Close g] | None => [] end) w.
Proof.
  unfold closeGrpcClient. rewrite exec_bind.
  change (eval getGrpcClient w) with (grpcClient w).
  change (exec getGrpcClient w) with w.
  destruct (grpcClient w); [reflexivity|]. now rewrite exec_ret, emits_nil.
Qed.

Lemma connectToServer_accounting (ctor : CtorOutcome) (w : World) :
  attemptsMade (exec (connectToServer ctor) w) = attemptsMade w + 1.
Proof.
  destruct ctor.
  - rewrite connectToServer_constructed.
    match goal with |- attemptsMade ?w1 = _ =>
      destruct (counts_app w1 (effects w) _ eq_refl) as (Ea & _)
    end.
    rewrite Ea. reflexivity.
  - rewrite connectToServer_throws, attemptsMade_emits. reflexivity.
Qed.

Lemma deliverReady_accounting (r : Readiness) (w : World) :
  attemptsMade (exec (deliverReady r) w) + connectTries w =
    attemptsMade w + connectTries (exec (deliverReady r) w) /\
  (connectTries w <= maxConnectTries w ->
   connectTries (exec (deliverReady r) w) <= maxConnectTries w).
Proof.
  destruct r as [[e|] ctor].
  - rewrite deliverReady_error.
    destruct (Nat.ltb_spec (connectTries w) (maxConnectTries w)) as [Hlt|Hge].
    + rewrite handleConnectError_retry_exec by exact Hlt.
      rewrite connectToServer_accounting.
      destruct (connectToServer_tries ctor
                  (exec closeGrpcClient
                     (exec incrConnectTries (exec popPendingReady w))))
        as [-> _].
      rewrite closeGrpcClient_exec, attemptsMade_emits.
      cbn [connectTries emits].
      replace (List.length (connectAttempts _)) with 0
        by (now destruct (grpcClient _)).
      change (attemptsMade (exec incrConnectTries (exec popPendingReady w)))
        with (attemptsMade w).
      change (connectTries (exec incrConnectTries (exec popPendingReady w)))
        with (connectTries w + 1).
      split; lia.
    + rewrite handleConnectError_exhausted by exact Hge.
      rewrite attemptsMade_emits.
      change (attemptsMade (exec popPendingReady w)) with (attemptsMade w).
      change (connectTries (emits _ (exec popPendingReady w)))
        with (connectTries w).
      cbn [List.length connectAttempts observe flat_map app]. split; lia.
  - rewrite deliverReady_success.
    match goal with |- attemptsMade ?w1 + _ = _ /\ _ =>
      destruct (counts_app w1 (effects w) _ eq_refl) as (Ea & _)
    end.
    rewrite Ea. cbn. unfold attemptsMade. split; lia.
Qed.

Lemma perform_accounting (a : Action) (w : World) :
  attemptsMade (perform a w) + connectTries w =
    attemptsMade w + serverReadies [a] + connectTries (perform a w) /\
  (connectTries w <= maxConnectTries w ->
   connectTries (perform a w) <= maxConnectTries w).
Proof.
  assert (quiet : isRequest a = true ->
            attemptsMade (perform a w) = attemptsMade w /\
            connectTries (perform a w) = connectTries w).
  { intros Ha. destruct (perform_request a Ha w) as (l & E & P).
    unfold exec in E. simpl in E. rewrite E, attemptsMade_emits.
    destruct (quiet_counts l P) as (-> & _). cbn. split; [lia|reflexivity]. }
  destruct a; try (destruct quiet as [-> ->]; [reflexivity|];
                   unfold serverReadies; cbn; split; lia).
  - simpl perform. destruct (handleServerReady_tries ctor w) as [-> _].
    unfold handleServerReady, logger_debug.
    rewrite !exec_bind, connectToServer_accounting, !exec_emit,
      !attemptsMade_emits.
    unfold serverReadies. cbn. split; lia.
  - unfold serverReadies. cbn. split; lia.
  - simpl perform. unfold serverReadies. cbn [filter List.length].
    destruct (deliverReady_accounting
                {| readyError := err; retryCtor := ctor |} w) as [H1 H2].
    split; [lia|exact H2].
  - simpl perform. rewrite dispose_exec, attemptsMade_emits.
    cbn [connectTries emits].
    replace (List.length (connectAttempts _)) with 0
      by (now destruct (grpcClient w)).
    unfold serverReadies. cbn. split; lia.
Qed.

(** X12: over any life of the client that starts with the counter within its
    bound, the counter stays within the bound, and every connect attempt is
    accounted for: the attempts made are the server-ready episodes plus the
    growth of the counter.  Hence at most [maxConnectTries] retries are ever
    made, however many episodes there are. *)
Theorem attempts_are_accounted_for
  (acts : list Action) (w : World)
  (bounded : connectTries w <= maxConnectTries w) :
  let w' := lifetime acts w in
  connectTries w' <= maxConnectTries w /\
  attemptsMade w' + connectTries w =
    attemptsMade w + serverReadies acts + connectTries w' /\
  attemptsMade w' <=
    attemptsMade w + serverReadies acts + (maxConnectTries w - connectTries w).
Proof.
  cbn zeta.
  assert (H : connectTries (lifetime acts w) <= maxConnectTries w /\
              attemptsMade (lifetime acts w) + connectTries w =
              attemptsMade w + serverReadies acts +
              connectTries (lifetime acts w)).
  { revert w bounded. unfold lifetime.
    induction acts as [|a acts IH]; intros w bounded; simpl.
    - unfold serverReadies. cbn. split; lia.
    - destruct (perform_accounting a w) as [H1 H2].
      destruct (perform_tries a w) as [_ Hm].
      destruct (IH (perform a w)) as [I1 I2]; [rewrite Hm; auto|].
      rewrite Hm in I1.
      assert (Hs : serverReadies (a :: acts) =
                   serverReadies [a] + serverReadies acts).
      { unfold serverReadies. cbn. destruct a; reflexivity. }
      rewrite Hs. split; [exact I1|lia]. }
  destruct H as [H1 H2]. split; [exact H1|]. split; [exact H2|lia].
Qed.

Lemma attempts_are_accounted_for_witness :
  attemptsMade
    (lifetime (ServerReady Constructed ::
               ClientReady (Some deadlineExceeded) Constructed ::
               cancelEpisode)
       (constructor 4000)) <= 0 + 1 + (5 - 0).
Proof.
  refine (proj2 (proj2 (attempts_are_accounted_for
                          (ServerReady Constructed ::
                           ClientReady (Some deadlineExceeded) Constructed ::
                           cancelEpisode)
                          (constructor 4000) _))).
  cbn. lia.
Defined.

(** ** After [dispose] *)



(** ** The connecting indicator *)

Lemma statusShown_app (l l' : list Effect) (before : bool) :
  statusShown before (l ++ l') = statusShown (statusShown before l) l'.
Proof.
  revert before. induction l as [|e l IH]; intros before; [reflexivity|].
  destruct e; simpl; apply IH.
Qed.

Lemma deliverReady_status (r : Readiness) (w : World) (before : bool) :
  retryCtor r = Constructed ->
  statusShown before (effects (exec (deliverReady r) w)) =
  statusShown before (effects w).
Proof.
  destruct r as [[e|] ctor]; cbn [retryCtor]; intros ->.
  - rewrite deliverReady_error.
    destruct (Nat.ltb_spec (connectTries (exec popPendingReady w))
                (maxConnectTries (exec popPendingReady w))) as [Hlt|Hge].
    + rewrite handleConnectError_retry by exact Hlt.
      cbn [effects]. change (effects (exec popPendingReady w)) with (effects w).
      rewrite !statusShown_app.
      now destruct (grpcClient (exec popPendingReady w)).
    + rewrite handleConnectError_exhausted by exact Hge.
      cbn [effects emits].
      change (effects (exec popPendingReady w)) with (effects w).
      now rewrite statusShown_app.
  - rewrite deliverReady_success. cbn [effects].
    now rewrite statusShown_app.
Qed.

(** X14: once a server-ready episode has shown the connecting indicator, nothing
    in the connect sequence hides it as long as the constructor does not
    throw: after a successful connection, after retries and after the
    restart prompt alike, the status bar item is still shown. *)
Theorem connecting_indicator_stays_shown
  (fuel : nat) (env : nat -> Readiness) (w : World) (before : bool)
  (noThrow : forall i, retryCtor (env i) = Constructed) :
  statusShown before
    (effects (eventLoop fuel env (exec (handleServerReady Constructed) w)))
  = true.
Proof.
  assert (loop : forall fuel env w,
            (forall i, retryCtor (env i) = Constructed) ->
            statusShown before (effects (eventLoop fuel env w)) =
            statusShown before (effects w)).
  { clear. induction fuel as [|fuel IH]; intros env w H; simpl; [reflexivity|].
    destruct (pendingReady w); [reflexivity|].
    rewrite IH by (intros i; apply H).
    apply deliverReady_status, H. }
  rewrite loop by exact noThrow.
  rewrite handleServerReady_constructed. cbn [effects].
  now rewrite statusShown_app.
Qed.

Lemma connecting_indicator_stays_shown_witness :
  statusShown false
    (effects (eventLoop 6 alwaysDeadline
                (exec (handleServerReady Constructed) (constructor 4000))))
  = true.
Proof.
  apply (@connecting_indicator_stays_shown 6 alwaysDeadline (constructor 4000)
           false).
  intros i. reflexivity.
Defined.

(** ** Repeated server-ready episodes *)

(** X15: each server-ready episode that connects at once constructs a new gRPC
    client, puts it in the field without closing the one it replaces, and
    fires the connected notification once: after [n] such episodes on an
    idle client, [n] clients were constructed, none closed, the notification
    was fired [n] times and the retry counter is as before. *)
Theorem each_ready_episode_fires_once
  (n : nat) (w : World) (idle : pendingReady w = []) :
  let w' := lifetime (readyEpisodes n) w in
  attemptsMade w' = attemptsMade w + n /\
  firesMade w' = firesMade w + n /\
  closesMade w' = closesMade w /\
  connectTries w' = connectTries w /\
  nextHandle w' = nextHandle w + n /\
  pendingReady w' = [] /\
  (0 < n -> grpcClient w' = Some (nextHandle w + n - 1)).
Proof.
  cbn zeta. revert w idle. unfold lifetime.
  induction n as [|n IH]; intros w idle; simpl.
  - repeat split; try lia; try assumption.
  - rewrite handleServerReady_constructed, deliverReady_success, idle.
    cbn [connectDeadline grpcClient connectTries maxConnectTries serverPort
         nextHandle pendingReady effects app tl].
    match goal with |- context [fold_left _ _ ?w1] =>
      destruct (IH w1 eq_refl) as (I1 & I2 & I3 & I4 & I5 & I6 & I7);
      destruct (counts_app w1 (effects w) _ (eq_sym (app_assoc _ _ _)))
        as (Ea & _ & Ec);
      pose proof (fires_app w1 (effects w) _ (eq_sym (app_assoc _ _ _))) as Ef
    end.
    split; [rewrite I1, Ea; cbn; unfold attemptsMade; lia|].
    split; [rewrite I2, Ef; cbn; unfold firesMade; lia|].
    split; [rewrite I3, Ec; cbn; unfold closesMade; lia|].
    split; [rewrite I4; reflexivity|].
    split; [rewrite I5; cbn [nextHandle]; lia|].
    split; [exact I6|].
    intros _. destruct n as [|n].
    + simpl. f_equal. lia.
    + rewrite I7 by lia. cbn [nextHandle]. f_equal. lia.
Qed.

Lemma each_ready_episode_fires_once_witness :
  firesMade (lifetime (readyEpisodes 3) (constructor 4000)) = 3.
Proof.
  exact (proj1 (proj2 (each_ready_episode_fires_once 3 (constructor 4000)
                         eq_refl))).
Defined.

(** ** Overlapping server-ready episodes *)

(** X16: [handleConnectError] closes the client the field holds, not the client
    whose readiness wait failed.  When a second server-ready episode starts
    while the readiness wait of the first is still pending, and the first
    wait then fails with tries left, it is the second, newer client that is
    closed; the first one is not, and a third client is constructed while the
    wait of the second is still pending. *)
Theorem stale_failure_closes_the_newer_client
  (e : JsError) (w : World) (idle : pendingReady w = [])
  (triesLeft : connectTries w < maxConnectTries w) :
  let first := nextHandle w in
  let second := S (nextHandle w) in
  let third := S (S (nextHandle w)) in
  let w2 :=
    exec (handleServerReady Constructed)
      (exec (handleServerReady Constructed) w) in
  let w3 :=
    exec (deliverReady {| readyError := Some e; retryCtor := Constructed |})
      w2 in
  pendingReady w2 = [first; second] /\
  grpcClient w2 = Some second /\
  effects w3 = effects w2 ++
    [Close second; NewGrpcClient (serverPort w);
     WaitForReady third (connectDeadline w)] /\
  pendingReady w3 = [second; third] /\
  grpcClient w3 = Some third /\
  closes (effects w3) = closes (effects w) ++ [second].
Proof.
  cbn zeta. rewrite !handleServerReady_constructed, idle.
  cbn [connectDeadline grpcClient connectTries maxConnectTries serverPort
       nextHandle pendingReady effects app].
  split; [reflexivity|]. split; [reflexivity|].
  rewrite deliverReady_error, handleConnectError_retry by exact triesLeft.
  cbn [connectDeadline grpcClient connectTries maxConnectTries serverPort
       nextHandle pendingReady effects app exec popPendingReady snd tl].
  split; [reflexivity|]. split; [reflexivity|]. split; [reflexivity|].
  unfold closes. rewrite !observe_app. cbn. now rewrite !app_nil_r.
Qed.

Lemma stale_failure_closes_the_newer_client_witness :
  closes
    (effects
       (exec (deliverReady {| readyError := Some deadlineExceeded;
                              retryCtor := Constructed |})
          (exec (handleServerReady Constructed)
             (exec (handleServerReady Constructed) (constructor 4000)))))
  = [1].
Proof.
  refine (proj2 (proj2 (proj2 (proj2 (proj2
            (@stale_failure_closes_the_newer_client deadlineExceeded
               (constructor 4000) eq_refl _)))))).
  cbn. lia.
Defined.
